(** * go-toast: the toast notification pipeline of [toast.go]

    A shallow embedding of [toast.go]: the template text handed to
    [text/template] in [init], the template engine restricted to the
    constructs that text uses, [buildXML], [Push] and
    [invokeTemporaryScript] over an explicit state of the operating system
    (temporary files, registry keys, open key handles) and an oracle for
    the answers of the environment (random source, file write, process
    exit). *)

From Stdlib Require Import Ascii String ZArith Lia.
From stdpp Require Import gmap strings list.

Local Set Warnings "-register-all".

(** ** Strings *)

Module Str.

Definition dq : string := String "034"%char "".
Definition nl : string := String "010"%char "".

(** [quoted s] is [s] between two double quotes. *)
Definition quoted (s : string) : string := dq +:+ s +:+ dq.

(** The lines of a text, joined by newlines (no newline after the last). *)
Fixpoint unlines (ls : list string) : string :=
  match ls with
  | [] => ""
  | [l] => l
  | l :: ls' => l +:+ nl +:+ unlines ls'
  end.

Fixpoint concat (ls : list string) : string :=
  match ls with
  | [] => ""
  | l :: ls' => l +:+ concat ls'
  end.

(** [starts p s]: [p] is a prefix of [s]. *)
Fixpoint starts (p s : string) : bool :=
  match p, s with
  | "", _ => true
  | String a p', String b s' => Ascii.eqb a b && starts p' s'
  | String _ _, "" => false
  end.

(** [strip p s] removes the prefix [p] from [s]. *)
Fixpoint strip (p s : string) : option string :=
  match p, s with
  | "", _ => Some s
  | String a p', String b s' => if Ascii.eqb a b then strip p' s' else None
  | String _ _, "" => None
  end.

(** Number of positions of [s] at which [p] occurs. *)
Fixpoint occurrences (p s : string) : nat :=
  match s with
  | "" => 0
  | String _ s' => (if starts p s then 1 else 0) + occurrences p s'
  end.

(** [has c s]: the character [c] occurs in [s]. *)
Fixpoint has (c : ascii) (s : string) : bool :=
  match s with
  | "" => false
  | String b s' => Ascii.eqb c b || has c s'
  end.

Definition is_space (c : ascii) : bool :=
  Ascii.eqb c " " || Ascii.eqb c "009" || Ascii.eqb c "010" || Ascii.eqb c "013".

Fixpoint trim_left (s : string) : string :=
  match s with
  | String c s' => if is_space c then trim_left s' else s
  | "" => ""
  end.

Fixpoint all_space (s : string) : bool :=
  match s with
  | "" => true
  | String c s' => is_space c && all_space s'
  end.

Fixpoint trim_right (s : string) : string :=
  match s with
  | "" => ""
  | String c s' => if all_space s then "" else String c (trim_right s')
  end.

Definition trim (s : string) : string := trim_right (trim_left s).

Definition is_alnum (c : ascii) : bool :=
  let n := nat_of_ascii c in
  (Nat.leb 65 n && Nat.leb n 90) || (Nat.leb 97 n && Nat.leb n 122)
  || (Nat.leb 48 n && Nat.leb n 57) || Nat.eqb n 95.

Fixpoint all_alnum (s : string) : bool :=
  match s with
  | "" => true
  | String c s' => is_alnum c && all_alnum s'
  end.

End Str.

(** ** Data model: [Notification] and [Action] *)

Record Action := mkAction {
  Type_ : string;
  Label : string;
  Arguments : string
}.

Record Notification := mkNotification {
  AppID : string;
  Title : string;
  Message : string;
  Icon : string;
  Actions : list Action;
  Persist : bool
}.

(** ** Errors

    Go's [error] values, by origin.  [ExitError] is [*exec.ExitError]: it
    embeds the process state, exit status included. *)

Inductive error :=
  | TemplateError (msg : string)      (* text/template: parse or exec *)
  | PathError (op path : string)      (* *os.PathError, from WriteFile *)
  | ExecError (name : string)         (* *exec.Error: the command did not start *)
  | ExitError (status : Z)            (* *exec.ExitError: non-zero exit *)
  | Errno (code : Z)                  (* syscall.Errno, from the registry *)
  | RandError.                        (* crypto/rand read failure *)

Inductive result (A : Type) :=
  | Ok (a : A)
  | Err (e : error).
Arguments Ok {A} a.
Arguments Err {A} e.

(** ** The template engine

    [text/template], for the constructs the toast template uses: literal
    text, [{{.Field}}], [{{if .Field}}..{{else}}..{{end}}] and
    [{{range .Field}}..{{end}}].  The engine is [text/template], not
    [html/template]: a value is printed as [fmt.Fprint] prints it. *)

Module Template.

(** Values, as reflection sees the data passed to [Execute]. *)
Inductive value :=
  | VString (s : string)
  | VBool (b : bool)
  | VSlice (l : list value)
  | VStruct (fields : list (string * value)).

Inductive node :=
  | NText (s : string)
  | NField (f : string)
  | NIf (f : string) (then_ else_ : list node)
  | NRange (f : string) (body else_ : list node).

Record Template := mkTemplate {
  name : string;
  tree : option (list node)
}.

(** *** Lexing: text and [{{ action }}] items *)

Inductive item :=
  | ItemText (s : string)
  | ItemAction (s : string).

Definition push_text (c : ascii) (r : list item) : list item :=
  match r with
  | ItemText t :: r' => ItemText (String c t) :: r'
  | _ => ItemText (String c "") :: r
  end.

Fixpoint lex (inside : bool) (s : string) : option (list item) :=
  match s with
  | "" => if inside then None else Some []
  | String c s' =>
      if inside then
        match c, s' with
        | "}"%char, String "}"%char s'' =>
            match lex false s'' with
            | Some r => Some (ItemAction "" :: r)
            | None => None
            end
        | _, _ =>
            match lex true s' with
            | Some (ItemAction a :: r) => Some (ItemAction (String c a) :: r)
            | _ => None
            end
        end
      else
        match c, s' with
        | "{"%char, String "{"%char s'' => lex true s''
        | _, _ =>
            match lex false s' with
            | Some r => Some (push_text c r)
            | None => None
            end
        end
  end.

(** *** Parsing *)

Inductive action :=
  | AField (f : string)
  | AIf (f : string)
  | ARange (f : string)
  | AElse
  | AEnd.

(** A pipeline is a field of dot: [.Name]. *)
Definition parse_field (s : string) : option string :=
  match Str.strip "." (Str.trim s) with
  | Some f => if Str.all_alnum f && negb (String.eqb f "") then Some f else None
  | None => None
  end.

Definition classify (a : string) : option action :=
  let a := Str.trim a in
  if String.eqb a "end" then Some AEnd
  else if String.eqb a "else" then Some AElse
  else match Str.strip "if " a with
  | Some p => option_map AIf (parse_field p)
  | None =>
  match Str.strip "range " a with
  | Some p => option_map ARange (parse_field p)
  | None => option_map AField (parse_field a)
  end end.

Inductive kind := KIf | KRange.

(** An open [if] or [range]: the nodes of the enclosing list read so far
    (last first), and the first branch once [{{else}}] was read. *)
Record frame := mkFrame {
  fkind : kind;
  ffield : string;
  fouter : list node;
  ffirst : option (list node)
}.

Definition close (fr : frame) (cur : list node) : node :=
  let '(t, e) := match ffirst fr with
                 | None => (rev cur, [])
                 | Some t => (t, rev cur)
                 end in
  match fkind fr with
  | KIf => NIf (ffield fr) t e
  | KRange => NRange (ffield fr) t e
  end.

Fixpoint parse_items (its : list item) (cur : list node) (stack : list frame)
  : option (list node) :=
  match its with
  | [] => match stack with [] => Some (rev cur) | _ => None end
  | ItemText t :: its' => parse_items its' (NText t :: cur) stack
  | ItemAction a :: its' =>
      match classify a with
      | None => None
      | Some (AField f) => parse_items its' (NField f :: cur) stack
      | Some (AIf f) => parse_items its' [] (mkFrame KIf f cur None :: stack)
      | Some (ARange f) => parse_items its' [] (mkFrame KRange f cur None :: stack)
      | Some AElse =>
          match stack with
          | fr :: stack' =>
              match ffirst fr with
              | None =>
                  parse_items its' []
                    (mkFrame (fkind fr) (ffield fr) (fouter fr) (Some (rev cur)) :: stack')
              | Some _ => None
              end
          | [] => None
          end
      | Some AEnd =>
          match stack with
          | fr :: stack' => parse_items its' (close fr cur :: fouter fr) stack'
          | [] => None
          end
      end
  end.

Definition New (nm : string) : Template := mkTemplate nm None.

(** [t.Parse(text)]: on a parse error the template is left without a tree. *)
Definition Parse (t : Template) (text : string) : Template * option error :=
  match lex false text with
  | Some its =>
      match parse_items its [] [] with
      | Some ns => (mkTemplate (name t) (Some ns), None)
      | None => (t, Some (TemplateError "parse"))
      end
  | None => (t, Some (TemplateError "unclosed action"))
  end.

(** *** Execution *)

Fixpoint lookup_field (f : string) (fs : list (string * value)) : option value :=
  match fs with
  | [] => None
  | (g, v) :: fs' => if String.eqb f g then Some v else lookup_field f fs'
  end.

Definition field (dot : value) (f : string) : result value :=
  match dot with
  | VStruct fs =>
      match lookup_field f fs with
      | Some v => Ok v
      | None => Err (TemplateError ("can't evaluate field " +:+ f))
      end
  | _ => Err (TemplateError ("can't evaluate field " +:+ f))
  end.

(** Truth of a value: the empty values are false. *)
Definition truth (v : value) : bool :=
  match v with
  | VString "" => false
  | VString _ => true
  | VBool b => b
  | VSlice [] => false
  | VSlice _ => true
  | VStruct _ => true
  end.

Fixpoint join (sep : string) (ls : list string) : string :=
  match ls with
  | [] => ""
  | [l] => l
  | l :: ls' => l +:+ sep +:+ join sep ls'
  end.

(** [fmt.Fprint] of a value: a string is written as it is. *)
Fixpoint print (v : value) : string :=
  match v with
  | VString s => s
  | VBool true => "true"
  | VBool false => "false"
  | VSlice l => "[" +:+ join " " (map print l) +:+ "]"
  | VStruct fs => "{" +:+ join " " (map (fun p => print (snd p)) fs) +:+ "}"
  end.

(** What [Execute] writes to its writer, in order: a piece of template
    text ([Lit]) or a printed value ([Val]). *)
Inductive write :=
  | Lit (s : string)
  | Val (s : string).

Definition bytes_of (x : write) : string :=
  match x with Lit s => s | Val s => s end.

(** The content of a buffer that received the writes [ws]. *)
Fixpoint flat (ws : list write) : string :=
  match ws with
  | [] => ""
  | x :: ws' => bytes_of x +:+ flat ws'
  end.

(** The writes of each element of a range, one after the other; the
    first error stops the walk. *)
Fixpoint each (body : value -> result (list write)) (l : list value)
  : result (list write) :=
  match l with
  | [] => Ok []
  | x :: l' =>
      match body x with
      | Err e => Err e
      | Ok a => match each body l' with
                | Err e => Err e
                | Ok b => Ok (a ++ b)
                end
      end
  end.

Fixpoint exec (n : node) (dot : value) {struct n} : result (list write) :=
  let walk := fix walk (ns : list node) (d : value) {struct ns}
    : result (list write) :=
    match ns with
    | [] => Ok []
    | m :: ms =>
        match exec m d with
        | Err e => Err e
        | Ok a => match walk ms d with
                  | Err e => Err e
                  | Ok b => Ok (a ++ b)
                  end
        end
    end in
  match n with
  | NText s => Ok [Lit s]
  | NField f =>
      match field dot f with
      | Ok v => Ok [Val (print v)]
      | Err e => Err e
      end
  | NIf f t e =>
      match field dot f with
      | Ok v => if truth v then walk t dot else walk e dot
      | Err er => Err er
      end
  | NRange f body e =>
      match field dot f with
      | Ok (VSlice []) => walk e dot
      | Ok (VSlice l) => each (walk body) l
      | Ok _ => Err (TemplateError ("range can't iterate over " +:+ f))
      | Err er => Err er
      end
  end.

Fixpoint exec_list (ns : list node) (dot : value) : result (list write) :=
  match ns with
  | [] => Ok []
  | m :: ms =>
      match exec m dot with
      | Err e => Err e
      | Ok a => match exec_list ms dot with
                | Err e => Err e
                | Ok b => Ok (a ++ b)
                end
      end
  end.

(** [t.Execute(wr, data)]: the writes made to [wr], or the error. *)
Definition Execute (t : Template) (data : value) : result (list write) :=
  match tree t with
  | None => Err (TemplateError "incomplete or empty template")
  | Some ns => exec_list ns data
  end.

End Template.

(** ** The template text of [init] *)

Definition template_text : string := Str.unlines [
  "";
  "[Windows.UI.Notifications.ToastNotificationManager, Windows.UI.Notifications, ContentType = WindowsRuntime] | Out-Null";
  "[Windows.UI.Notifications.ToastNotification, Windows.UI.Notifications, ContentType = WindowsRuntime] | Out-Null";
  "[Windows.Data.Xml.Dom.XmlDocument, Windows.Data.Xml.Dom.XmlDocument, ContentType = WindowsRuntime] | Out-Null";
  "";
  "$APP_ID = '{{if .AppID}}{{.AppID}}{{else}}io.github.go-toast.toast{{end}}'";
  "";
  "$template = @" +:+ Str.dq;
  "<toast>";
  "    <visual>";
  "        <binding template=" +:+ Str.quoted "ToastGeneric" +:+ ">";
  "            {{if .Icon}}";
  "            <image placement=" +:+ Str.quoted "appLogoOverride" +:+ " src=" +:+ Str.quoted "{{.Icon}}" +:+ " />";
  "            {{end}}";
  "            {{if .Title}}";
  "            <text>{{.Title}}</text>";
  "            {{end}}";
  "            {{if .Message}}";
  "            <text>{{.Message}}</text>";
  "            {{end}}";
  "        </binding>";
  "    </visual>";
  "    {{if .Actions}}";
  "    <actions>";
  "        {{range .Actions}}";
  "        <action activationType=" +:+ Str.quoted "{{.Type}}" +:+ " content=" +:+ Str.quoted "{{.Label}}" +:+ " arguments=" +:+ Str.quoted "{{.Arguments}}" +:+ " />";
  "        {{end}}";
  "    </actions>";
  "    {{end}}";
  "</toast>";
  Str.dq +:+ "@";
  "";
  "$xml = New-Object Windows.Data.Xml.Dom.XmlDocument";
  "$xml.LoadXml($template)";
  "$toast = New-Object Windows.UI.Notifications.ToastNotification $xml";
  "[Windows.UI.Notifications.ToastNotificationManager]::CreateToastNotifier($APP_ID).Show($toast)";
  "    "
].

(** ** The program state and the operating system

    [World] is what the code reads and changes: the package variable
    [toastTemplate], the files, the registry keys under [CURRENT_USER]
    (a key is a table of named DWORD values) and the open key handles.
    [Env] is what the environment answers during one call of [Push]. *)

Record File := mkFile {
  perm : Z;
  data : string
}.

Record World := mkWorld {
  toastTemplate : Template.Template;
  files : gmap string File;
  keys : gmap string (gmap string Z);
  handles : gmap positive string
}.

Definition set_template (t : Template.Template) (w : World) : World :=
  mkWorld t (files w) (keys w) (handles w).
Definition set_files (f : gmap string File) (w : World) : World :=
  mkWorld (toastTemplate w) f (keys w) (handles w).
Definition set_keys (k : gmap string (gmap string Z)) (w : World) : World :=
  mkWorld (toastTemplate w) (files w) k (handles w).
Definition set_handles (h : gmap positive string) (w : World) : World :=
  mkWorld (toastTemplate w) (files w) (keys w) h.

(** The outcome of [ioutil.WriteFile]: the file is written, or the call
    fails, leaving nothing ([left = None], the file could not be opened)
    or a truncated file ([left = Some part]). *)
Inductive WriteOutcome :=
  | Written
  | WriteFailed (e : error) (left : option string).

(** The outcome of [Cmd.Run]: the process did not start, or it ran
    and exited with a status. *)
Inductive RunOutcome :=
  | NotStarted (e : error)
  | Exited (status : Z).

Record Env := mkEnv {
  uuid_bytes : list Z;               (* the sixteen bytes NewV4 hands back *)
  rand_err : option error;           (* the error of the random source *)
  TempDir : string;
  write_outcome : WriteOutcome;
  run_outcome : RunOutcome;
  create_refused : option error;     (* the registry refuses CreateKey *)
  set_refused : option error;        (* ... SetDWordValue *)
  delete_refused : option error      (* ... DeleteKey *)
}.

(** A call returns or panics. *)
Inductive outcome (A : Type) :=
  | Returns (a : A)
  | Panics (msg : string).
Arguments Returns {A} a.
Arguments Panics {A} msg.

Definition M (A : Type) : Type := World -> outcome A * World.

Definition ret {A} (a : A) : M A := fun w => (Returns a, w).

Definition bind {A B} (m : M A) (k : A -> M B) : M B :=
  fun w =>
    match m w with
    | (Returns a, w') => k a w'
    | (Panics msg, w') => (Panics msg, w')
    end.

Notation "x <~ m ; k" := (bind m (fun x => k))
  (at level 20, m at level 100, k at level 200, only parsing).
Notation "' p <~ m ; k" := (bind m (fun x => match x with p => k end))
  (at level 20, p pattern, m at level 100, k at level 200, only parsing).

(** [defer cleanup; body]: [cleanup] runs when [body] is left, on a return
    and on a panic alike; what it returns is dropped. *)
Definition defer {A B} (cleanup : M B) (body : M A) : M A :=
  fun w =>
    let '(r, w') := body w in
    (r, snd (cleanup w')).

(** *** [golang.org/x/sys/windows/registry]

    A key is known by its path.  The registry may refuse a call (access
    denied, a key that still has subkeys, ...): then the call returns the
    error and changes nothing. *)

Module registry.

Definition Key := Z.
Definition CURRENT_USER : Key := 2147483649%Z.   (* 0x80000001 *)
Definition ALL_ACCESS : Z := 983103%Z.           (* 0xf003f *)
Definition ERROR_FILE_NOT_FOUND : error := Errno 2%Z.
Definition ERROR_INVALID_HANDLE : error := Errno 6%Z.

(** The path behind an open handle. *)
Definition resolve (k : Key) (w : World) : option string :=
  match k with
  | Zpos h => handles w !! h
  | _ => None
  end.

(** [CreateKey] opens the key, creating it when it is absent; it tells
    whether the key existed. *)
Definition CreateKey (env : Env) (k : Key) (path : string) (access : Z)
  : M (Key * bool * option error) :=
  fun w =>
    if negb (Z.eqb k CURRENT_USER) then
      (Returns (0%Z, false, Some ERROR_INVALID_HANDLE), w)
    else
      match create_refused env with
      | Some e => (Returns (0%Z, false, Some e), w)
      | None =>
          let h := fresh (dom (handles w)) in
          let w1 := set_handles (<[h := path]> (handles w)) w in
          match keys w !! path with
          | Some _ => (Returns (Zpos h, true, None), w1)
          | None =>
              (Returns (Zpos h, false, None),
               set_keys (<[path := ∅]> (keys w)) w1)
          end
      end.

Definition SetDWordValue (env : Env) (k : Key) (name : string) (value : Z)
  : M (option error) :=
  fun w =>
    match resolve k w with
    | None => (Returns (Some ERROR_INVALID_HANDLE), w)
    | Some path =>
        match set_refused env with
        | Some e => (Returns (Some e), w)
        | None =>
            let vals := default ∅ (keys w !! path) in
            (Returns None,
             set_keys (<[path := <[name := value]> vals]> (keys w)) w)
        end
    end.

Definition Close (k : Key) : M (option error) :=
  fun w =>
    match k with
    | Zpos h =>
        match handles w !! h with
        | Some _ => (Returns None, set_handles (delete h (handles w)) w)
        | None => (Returns (Some ERROR_INVALID_HANDLE), w)
        end
    | _ => (Returns (Some ERROR_INVALID_HANDLE), w)
    end.

(** [DeleteKey] removes the key; an absent key is an error. *)
Definition DeleteKey (env : Env) (k : Key) (path : string) : M (option error) :=
  fun w =>
    if negb (Z.eqb k CURRENT_USER) then
      (Returns (Some ERROR_INVALID_HANDLE), w)
    else
      match delete_refused env with
      | Some e => (Returns (Some e), w)
      | None =>
          match keys w !! path with
          | None => (Returns (Some ERROR_FILE_NOT_FOUND), w)
          | Some _ => (Returns None, set_keys (delete path (keys w)) w)
          end
      end.

End registry.

(** *** [github.com/nu7hatch/gouuid] *)

Module uuid.

(** [type UUID [16]byte]; a [*UUID] may be nil. *)
Definition UUID := list Z.

Definition hex_digit (d : Z) : ascii :=
  match String.get (Z.to_nat d) "0123456789abcdef" with
  | Some c => c
  | None => "0"%char
  end.

Definition hex_byte (b : Z) : string :=
  String (hex_digit (Z.land (Z.shiftr b 4) 15%Z))
    (String (hex_digit (Z.land b 15%Z)) "").

Definition hex (bs : list Z) : string := Str.concat (map hex_byte bs).

(** [NewV4] allocates the UUID before it reads the random source: the
    pointer it returns is set also when it returns an error. *)
Definition NewV4 (env : Env) : option UUID * option error :=
  (Some (uuid_bytes env), rand_err env).

(** The five groups of a UUID in hexadecimal. *)
Definition format (u : UUID) : string :=
  hex (take 4 u) +:+ "-" +:+ hex (take 2 (drop 4 u)) +:+ "-"
  +:+ hex (take 2 (drop 6 u)) +:+ "-"
  +:+ hex (take 2 (drop 8 u)) +:+ "-" +:+ hex (drop 10 u).

(** [(u *UUID) String()]: slicing a nil array pointer panics. *)
Definition String_ (u : option UUID) : M string :=
  fun w =>
    match u with
    | None => (Panics "invalid memory address or nil pointer dereference", w)
    | Some u => (Returns (format u), w)
    end.

End uuid.

(** *** [os], [path/filepath], [io/ioutil], [os/exec] *)

Module filepath.
(** [Join], for a directory and a file name that need no cleaning. *)
Definition Join (dir file : string) : string := dir +:+ "\" +:+ file.
End filepath.

Module os.

Definition Remove (file : string) : M (option error) :=
  fun w =>
    match files w !! file with
    | Some _ => (Returns None, set_files (delete file (files w)) w)
    | None => (Returns (Some (PathError "remove" file)), w)
    end.

End os.

Module ioutil.

(** [WriteFile] creates the file with [perm] or truncates the one that
    exists, and writes [content]. *)
Definition WriteFile (env : Env) (file content : string) (pm : Z)
  : M (option error) :=
  fun w =>
    let pm' := match files w !! file with
               | Some f => perm f
               | None => pm
               end in
    match write_outcome env with
    | Written =>
        (Returns None, set_files (<[file := mkFile pm' content]> (files w)) w)
    | WriteFailed e None => (Returns (Some e), w)
    | WriteFailed e (Some part) =>
        (Returns (Some e), set_files (<[file := mkFile pm' part]> (files w)) w)
    end.

End ioutil.

Module exec.

Record Cmd := mkCmd {
  Path : string;
  Args : list string
}.

Definition Command (name : string) (arg : list string) : Cmd :=
  mkCmd name (name :: arg).

(** [Run] starts the command and waits for it: nil after exit status 0,
    an [ExitError] holding the status after any other. *)
Definition Run (env : Env) (c : Cmd) : M (option error) :=
  fun w =>
    match run_outcome env with
    | NotStarted e => (Returns (Some e), w)
    | Exited 0%Z => (Returns None, w)
    | Exited st => (Returns (Some (ExitError st)), w)
    end.

End exec.

(** ** [toast.go] *)

Definition reflect_Action (a : Action) : Template.value :=
  Template.VStruct [
    ("Type", Template.VString (Type_ a));
    ("Label", Template.VString (Label a));
    ("Arguments", Template.VString (Arguments a))
  ].

(** The [*Notification] as the template engine sees it. *)
Definition reflect (n : Notification) : Template.value :=
  Template.VStruct [
    ("AppID", Template.VString (AppID n));
    ("Title", Template.VString (Title n));
    ("Message", Template.VString (Message n));
    ("Icon", Template.VString (Icon n));
    ("Actions", Template.VSlice (map reflect_Action (Actions n)));
    ("Persist", Template.VBool (Persist n))
  ].

Definition init : M unit :=
  fun w =>
    let t := Template.New "toast" in
    let '(t', _) := Template.Parse t template_text in
    (Returns tt, set_template t' w).

Definition buildXML (n : Notification) : M (string * option error) :=
  fun w =>
    match Template.Execute (toastTemplate w) (reflect n) with
    | Err e => (Returns ("", Some e), w)
    | Ok out => (Returns (Template.flat out, None), w)
    end.

Definition invokeTemporaryScript (env : Env) (content : string) : M (option error) :=
  let '(id, _) := uuid.NewV4 env in
  id_s <~ uuid.String_ id ;
  let file := filepath.Join (TempDir env) (id_s +:+ ".ps1") in
  defer (os.Remove file) (
    err <~ ioutil.WriteFile env file content 384%Z ;   (* 0600 *)
    match err with
    | Some e => ret (Some e)
    | None =>
        err <~ exec.Run env
                 (exec.Command "PowerShell" ["-ExecutionPolicy"; "Bypass"; "-File"; file]) ;
        match err with
        | Some e => ret (Some e)
        | None => ret None
        end
    end).

Definition settings_path : string :=
  "SOFTWARE\Microsoft\Windows\CurrentVersion\Notifications\Settings\".

Definition Push (env : Env) (n : Notification) : M (option error) :=
  _ <~ (if Persist n then
          '(k, _, _) <~ registry.CreateKey env registry.CURRENT_USER
                          (settings_path +:+ AppID n) registry.ALL_ACCESS ;
          _ <~ registry.SetDWordValue env k "ShowInActionCenter" 1%Z ;
          registry.Close k
        else
          registry.DeleteKey env registry.CURRENT_USER (settings_path +:+ AppID n)) ;
  '(xml, _) <~ buildXML n ;
  invokeTemporaryScript env xml.

(** ** The pieces of the template text

    The literal text between the actions of [template_text], named;
    [toast_tree] below checks them against the parse of the text. *)

Module Piece.

Definition preamble : string := Str.unlines [
  "";
  "[Windows.UI.Notifications.ToastNotificationManager, Windows.UI.Notifications, ContentType = WindowsRuntime] | Out-Null";
  "[Windows.UI.Notifications.ToastNotification, Windows.UI.Notifications, ContentType = WindowsRuntime] | Out-Null";
  "[Windows.Data.Xml.Dom.XmlDocument, Windows.Data.Xml.Dom.XmlDocument, ContentType = WindowsRuntime] | Out-Null";
  "";
  "$APP_ID = '"
].

Definition default_app_id : string := "io.github.go-toast.toast".

Definition binding_open : string := Str.unlines [
  "'";
  "";
  "$template = @" +:+ Str.dq;
  "<toast>";
  "    <visual>";
  "        <binding template=" +:+ Str.quoted "ToastGeneric" +:+ ">";
  "            "
].

Definition image_open : string := Str.unlines [
  "";
  "            <image placement=" +:+ Str.quoted "appLogoOverride" +:+ " src=" +:+ Str.dq
].

Definition image_close : string := Str.unlines [Str.dq +:+ " />"; "            "].

Definition gap : string := Str.unlines [""; "            "].

Definition text_open : string := Str.unlines [""; "            <text>"].

Definition text_close : string := Str.unlines ["</text>"; "            "].

Definition binding_close : string := Str.unlines [
  "";
  "        </binding>";
  "    </visual>";
  "    "
].

Definition actions_open : string := Str.unlines [""; "    <actions>"; "        "].

Definition action_open : string := Str.unlines [
  "";
  "        <action activationType=" +:+ Str.dq
].

Definition action_content : string := Str.dq +:+ " content=" +:+ Str.dq.

Definition action_arguments : string := Str.dq +:+ " arguments=" +:+ Str.dq.

Definition action_close : string := Str.unlines [Str.dq +:+ " />"; "        "].

Definition actions_close : string := Str.unlines [""; "    </actions>"; "    "].

Definition epilogue : string := Str.unlines [
  "";
  "</toast>";
  Str.dq +:+ "@";
  "";
  "$xml = New-Object Windows.Data.Xml.Dom.XmlDocument";
  "$xml.LoadXml($template)";
  "$toast = New-Object Windows.UI.Notifications.ToastNotification $xml";
  "[Windows.UI.Notifications.ToastNotificationManager]::CreateToastNotifier($APP_ID).Show($toast)";
  "    "
].

End Piece.

(** The body of the [range] over the actions. *)
Definition action_nodes : list Template.node :=
  [ Template.NText Piece.action_open; Template.NField "Type";
    Template.NText Piece.action_content; Template.NField "Label";
    Template.NText Piece.action_arguments; Template.NField "Arguments";
    Template.NText Piece.action_close ].

(** The tree [init] leaves in [toastTemplate]. *)
Definition toast_nodes : list Template.node :=
  let T := Template.NText in
  let F := Template.NField in
  [ T Piece.preamble;
    Template.NIf "AppID" [F "AppID"] [T Piece.default_app_id];
    T Piece.binding_open;
    Template.NIf "Icon" [T Piece.image_open; F "Icon"; T Piece.image_close] [];
    T Piece.gap;
    Template.NIf "Title" [T Piece.text_open; F "Title"; T Piece.text_close] [];
    T Piece.gap;
    Template.NIf "Message" [T Piece.text_open; F "Message"; T Piece.text_close] [];
    T Piece.binding_close;
    Template.NIf "Actions"
      [ T Piece.actions_open;
        Template.NRange "Actions" action_nodes [];
        T Piece.actions_close ] [];
    T Piece.epilogue ].

(** ** What [buildXML] writes, in closed form *)

Definition nonempty (s : string) : bool :=
  match s with
  | EmptyString => false
  | String _ _ => true
  end.

Definition action_writes (a : Action) : list Template.write :=
  [ Template.Lit Piece.action_open; Template.Val (Type_ a);
    Template.Lit Piece.action_content; Template.Val (Label a);
    Template.Lit Piece.action_arguments; Template.Val (Arguments a);
    Template.Lit Piece.action_close ].

Definition app_id_writes (n : Notification) : list Template.write :=
  if nonempty (AppID n) then [Template.Val (AppID n)]
  else [Template.Lit Piece.default_app_id].

Definition icon_writes (n : Notification) : list Template.write :=
  if nonempty (Icon n)
  then [Template.Lit Piece.image_open; Template.Val (Icon n); Template.Lit Piece.image_close]
  else [].

Definition text_writes (s : string) : list Template.write :=
  if nonempty s
  then [Template.Lit Piece.text_open; Template.Val s; Template.Lit Piece.text_close]
  else [].

Definition actions_writes (l : list Action) : list Template.write :=
  match l with
  | [] => []
  | _ => [Template.Lit Piece.actions_open] ++ flat_map action_writes l
         ++ [Template.Lit Piece.actions_close]
  end.

Definition writes (n : Notification) : list Template.write :=
  [Template.Lit Piece.preamble] ++ app_id_writes n
  ++ [Template.Lit Piece.binding_open] ++ icon_writes n
  ++ [Template.Lit Piece.gap] ++ text_writes (Title n)
  ++ [Template.Lit Piece.gap] ++ text_writes (Message n)
  ++ [Template.Lit Piece.binding_close] ++ actions_writes (Actions n)
  ++ [Template.Lit Piece.epilogue].

(** The text of the script rendered for [n]. *)
Definition render (n : Notification) : string := Template.flat (writes n).

(** A world after [init], and requests and answers to try the code on. *)
Module Sample.

Definition blank : World := mkWorld (Template.New "") ∅ ∅ ∅.
Definition world : World := snd (init blank).

Definition build : Notification :=
  mkNotification "" "Build" "Done" ""
    [mkAction "protocol" "Open" "app://open"] false.

Definition id_bytes : list Z :=
  [1; 2; 3; 4; 5; 6; 7; 8; 9; 10; 11; 12; 13; 14; 15; 255]%Z.

(** The interpreter exits with [st]. *)
Definition exits (st : Z) : Env :=
  mkEnv id_bytes None "C:\Temp" Written (Exited st) None None None.

(** The random source fails. *)
Definition no_entropy : Env :=
  mkEnv (repeat 0%Z 16) (Some RandError) "C:\Temp" Written (Exited 0%Z)
        None None None.

(** The registry refuses every call and the write fails. *)
Definition hostile : Env :=
  mkEnv id_bytes None "C:\Temp" (WriteFailed (PathError "open" "disk full") None)
        (Exited 0%Z) (Some (Errno 5%Z)) (Some (Errno 5%Z)) (Some (Errno 5%Z)).

(** The registry creates the key and refuses to set the value. *)
Definition set_refused_only : Env :=
  mkEnv id_bytes None "C:\Temp" Written (Exited 0%Z) None (Some (Errno 5%Z)) None.

Definition persistent : Notification :=
  mkNotification "Example App" "Kept" "" "" [] true.

Definition transient : Notification :=
  mkNotification "Example App" "Gone" "" "" [] false.

(** A world where the key of the example app holds a setting. *)
Definition configured : World :=
  set_keys (<[settings_path +:+ "Example App" := {[ "Enabled" := 0%Z ]}]> ∅) world.

End Sample.

(** ** Occurrences of a needle in the writes

    Used to count the elements of the rendered text. *)

Section Occurrences.

Import Template.

(** [safe_start m b]: [b] does not begin with a character of [m] past
    its first one, so no occurrence of [m] that begins before [b] can
    run into [b]. *)
Definition tail (m : string) : string :=
  match m with
  | EmptyString => EmptyString
  | String _ m' => m'
  end.

Definition safe_start (m b : string) : bool :=
  match b with
  | EmptyString => true
  | String c _ => negb (Str.has c (tail m))
  end.

(** [closed m a]: wherever [m] begins to match inside [a], the match
    succeeds or fails before the end of [a]. *)
Fixpoint closed (m a : string) : bool :=
  match a with
  | EmptyString => true
  | String _ a' => (Str.starts m a || negb (Str.starts a m)) && closed m a'
  end.

(** The occurrences of [m] inside the pieces of template text. *)
Fixpoint counted (m : string) (ws : list write) : nat :=
  match ws with
  | [] => 0
  | Lit s :: r => Str.occurrences m s + counted m r
  | Val _ :: r => counted m r
  end.

Definition follows (m : string) (r : list write) : bool :=
  match r with
  | [] => true
  | Lit s :: _ => nonempty s && safe_start m s
  | Val _ :: _ => false
  end.

(** Every value is followed by the end or by template text that [m]
    cannot run into. *)
Fixpoint spaced (m : string) (ws : list write) : bool :=
  match ws with
  | [] => true
  | Lit _ :: r => spaced m r
  | Val _ :: r => follows m r && spaced m r
  end.

Definition good (m : string) (x : write) : Prop :=
  match x with
  | Lit s => closed m s = true
  | Val v => Str.occurrences m v = 0
  end.

End Occurrences.

(** ** Field values and markup elements *)

Definition action_values (a : Action) : list string :=
  [Type_ a; Label a; Arguments a].

(** The field values of a request that the template prints. *)
Definition values (n : Notification) : list string :=
  [AppID n; Title n; Message n; Icon n] ++ flat_map action_values (Actions n).

(** [free m n]: no field value of [n] contains the text [m]. *)
Definition free (m : string) (n : Notification) : Prop :=
  Forall (fun v => Str.occurrences m v = 0) (values n).

Definition app_id_line (id : string) : string := "$APP_ID = '" +:+ id +:+ "'".

Definition image_element (src : string) : string :=
  "<image placement=" +:+ Str.quoted "appLogoOverride"
  +:+ " src=" +:+ Str.quoted src +:+ " />".

Definition text_element (s : string) : string := "<text>" +:+ s +:+ "</text>".

Definition action_element (a : Action) : string :=
  "<action activationType=" +:+ Str.quoted (Type_ a)
  +:+ " content=" +:+ Str.quoted (Label a)
  +:+ " arguments=" +:+ Str.quoted (Arguments a) +:+ " />".

(** The white space the template leaves around an action element. *)
Definition action_indent : string := Str.unlines [""; "        "].

(** [contains s out]: [s] is a substring of [out]. *)
Definition contains (s out : string) : Prop :=
  exists pre post, out = pre +:+ s +:+ post.

(** All the pieces, and those that come after a printed value or
    between two parts of the output. *)
Definition all_pieces : list string :=
  [ Piece.preamble; Piece.default_app_id; Piece.binding_open;
    Piece.image_open; Piece.image_close; Piece.gap; Piece.text_open;
    Piece.text_close; Piece.binding_close; Piece.actions_open;
    Piece.action_open; Piece.action_content; Piece.action_arguments;
    Piece.action_close; Piece.actions_close; Piece.epilogue ].

Definition following_pieces : list string :=
  [ Piece.binding_open; Piece.image_close; Piece.gap; Piece.text_close;
    Piece.binding_close; Piece.action_content; Piece.action_arguments;
    Piece.action_close; Piece.actions_close; Piece.epilogue ].

(** [m] can be counted in the rendered text piece by piece. *)
Definition countable_marker (m : string) : bool :=
  forallb (closed m) all_pieces
  && forallb (fun s => nonempty s && safe_start m s) following_pieces.

(** The type-loading lines that open the script, up to the declaration
    of [$APP_ID]. *)
Definition type_loads : string := Str.unlines [
  "";
  "[Windows.UI.Notifications.ToastNotificationManager, Windows.UI.Notifications, ContentType = WindowsRuntime] | Out-Null";
  "[Windows.UI.Notifications.ToastNotification, Windows.UI.Notifications, ContentType = WindowsRuntime] | Out-Null";
  "[Windows.Data.Xml.Dom.XmlDocument, Windows.Data.Xml.Dom.XmlDocument, ContentType = WindowsRuntime] | Out-Null";
  "";
  ""
].

(** Requests whose field values carry markup. *)
Definition markup_in_title (markup : string) : Notification :=
  mkNotification "" markup "" "" [] false.

(** A request with markup characters in every field. *)
Definition with_metacharacters : Notification :=
  mkNotification "it's <me>" ("<b>" +:+ Str.quoted "x" +:+ "</b>") "a < b & c"
    ("C:\a " +:+ Str.dq +:+ ".png")
    [mkAction "protocol" ("<" +:+ Str.dq +:+ ">") "app://open?a=1&b=2"] false.

(** ** What a call of [invokeTemporaryScript] depends on *)

(** The name of the temporary file. *)
Definition temp_file (env : Env) : string :=
  filepath.Join (TempDir env) (uuid.format (uuid_bytes env) +:+ ".ps1").

(** The error of the interpreter run. *)
Definition run_error (env : Env) : option error :=
  match run_outcome env with
  | NotStarted e => Some e
  | Exited 0%Z => None
  | Exited st => Some (ExitError st)
  end.

(** The error of the write, else that of the run. *)
Definition invoke_error (env : Env) : option error :=
  match write_outcome env with
  | WriteFailed e _ => Some e
  | Written => run_error env
  end.

(** The registry refuses no call. *)
Definition grants (env : Env) : Prop :=
  create_refused env = None /\ set_refused env = None /\ delete_refused env = None.

(** The registry key of the persistence setting of [n]. *)
Definition persistence_key (n : Notification) : string :=
  settings_path +:+ AppID n.

(** The keys once the persistence setting is stored under [key]: the
    key exists, with [ShowInActionCenter] set to 1 and its other values
    kept. *)
Definition persisted (key : string) (ks : gmap string (gmap string Z))
  : gmap string (gmap string Z) :=
  <[key := <["ShowInActionCenter" := 1%Z]> (default ∅ (ks !! key))]> ks.

(** Structural equality of requests. *)
Definition Action_eqb (a b : Action) : bool :=
  String.eqb (Type_ a) (Type_ b) && String.eqb (Label a) (Label b)
  && String.eqb (Arguments a) (Arguments b).

Fixpoint Actions_eqb (l1 l2 : list Action) : bool :=
  match l1, l2 with
  | [], [] => true
  | a :: l1', b :: l2' => Action_eqb a b && Actions_eqb l1' l2'
  | _, _ => false
  end.

Definition Notification_eqb (n1 n2 : Notification) : bool :=
  String.eqb (AppID n1) (AppID n2) && String.eqb (Title n1) (Title n2)
  && String.eqb (Message n1) (Message n2) && String.eqb (Icon n1) (Icon n2)
  && Actions_eqb (Actions n1) (Actions n2) && Bool.eqb (Persist n1) (Persist n2).

(** ** Runs of calls, and the registry after a call *)

(** The world after the calls of [Push] in [calls], each with the answers
    of its environment. *)
Definition pushes (calls : list (Env * Notification)) (w : World) : World :=
  fold_left (fun w c => snd (Push (fst c) (snd c) w)) calls w.

(** The keys after the registry calls of [Push], refusals included: a
    refused [CreateKey] or [DeleteKey] changes nothing; a refused
    [SetDWordValue] comes after the key was created. *)
Definition keys_after (env : Env) (n : Notification)
  (ks : gmap string (gmap string Z)) : gmap string (gmap string Z) :=
  let key := settings_path +:+ AppID n in
  if Persist n then
    match create_refused env, set_refused env with
    | Some _, _ => ks
    | None, Some _ =>
        match ks !! key with
        | Some _ => ks
        | None => <[key := ∅]> ks
        end
    | None, None => persisted key ks
    end
  else
    match delete_refused env with
    | Some _ => ks
    | None => delete key ks
    end.

(** A request with the fields of [n] and the persistence choice [p]. *)
Definition with_Persist (p : bool) (n : Notification) : Notification :=
  mkNotification (AppID n) (Title n) (Message n) (Icon n) (Actions n) p.

(** ** Reading an identifier back *)

(** The bytes of a [UUID] are bytes. *)
Definition is_bytes (u : list Z) : Prop := Forall (fun b => (0 <= b < 256)%Z) u.

Definition hex_value (c : ascii) : Z :=
  match c with
  | "0" => 0 | "1" => 1 | "2" => 2 | "3" => 3 | "4" => 4 | "5" => 5
  | "6" => 6 | "7" => 7 | "8" => 8 | "9" => 9 | "a" => 10 | "b" => 11
  | "c" => 12 | "d" => 13 | "e" => 14 | "f" => 15 | _ => 0
  end%char%Z.

(** The bytes that a text of hexadecimal pairs and dashes spells. *)
Fixpoint unhex (s : string) : list Z :=
  match s with
  | EmptyString => []
  | String c1 t =>
      if Ascii.eqb c1 "-" then unhex t
      else match t with
           | EmptyString => []
           | String c2 t' => (16 * hex_value c1 + hex_value c2)%Z :: unhex t'
           end
  end.

(** The two digits of [b] spell [b] back. *)
Definition hex_byte_reads_back (b : Z) : bool :=
  let hi := uuid.hex_digit (Z.land (Z.shiftr b 4) 15) in
  let lo := uuid.hex_digit (Z.land b 15) in
  negb (Ascii.eqb hi "-") && Z.eqb (16 * hex_value hi + hex_value lo) b.

(** 1 when the request has an action, else 0. *)
Definition some_action (n : Notification) : nat :=
  match Actions n with
  | [] => 0
  | _ :: _ => 1
  end.

(** * Properties *)

(** ** The parse of the template text *)

Lemma toast_tree :
  Template.Parse (Template.New "toast") template_text
  = (Template.mkTemplate "toast" (Some toast_nodes), None).
Proof. vm_compute. reflexivity. Qed.

Lemma init_template w :
  toastTemplate (snd (init w)) = Template.mkTemplate "toast" (Some toast_nodes).
Proof. unfold init. rewrite toast_tree. reflexivity. Qed.

(** ** The engine on the toast tree *)

Section Engine.

Import Template.

(** The walk inside [exec] is [exec_list]. *)
Lemma exec_if f t e d :
  exec (NIf f t e) d =
  match field d f with
  | Ok v => if truth v then exec_list t d else exec_list e d
  | Err er => Err er
  end.
Proof. reflexivity. Qed.

Lemma exec_range f body e d :
  exec (NRange f body e) d =
  match field d f with
  | Ok (VSlice []) => exec_list e d
  | Ok (VSlice l) => each (exec_list body) l
  | Ok _ => Err (TemplateError ("range can't iterate over " +:+ f))
  | Err er => Err er
  end.
Proof. reflexivity. Qed.

Lemma exec_list_cons m ms d a b :
  exec m d = Ok a -> exec_list ms d = Ok b -> exec_list (m :: ms) d = Ok (a ++ b).
Proof. intros Ha Hb. simpl. rewrite Ha, Hb. reflexivity. Qed.

Lemma exec_if_string f t e d s a b :
  field d f = Ok (VString s) ->
  exec_list t d = Ok a -> exec_list e d = Ok b ->
  exec (NIf f t e) d = Ok (if nonempty s then a else b).
Proof.
  intros Hf Ht He. rewrite exec_if, Hf.
  destruct s; simpl; assumption.
Qed.

Lemma exec_action a :
  exec_list action_nodes (reflect_Action a) = Ok (action_writes a).
Proof. reflexivity. Qed.

Lemma each_action l :
  each (exec_list action_nodes) (map reflect_Action l)
  = Ok (flat_map action_writes l).
Proof.
  induction l as [|a l IH]; [reflexivity|].
  cbn [map each flat_map]. rewrite exec_action, IH. reflexivity.
Qed.

Lemma exec_actions n :
  exec (NIf "Actions"
          [ NText Piece.actions_open; NRange "Actions" action_nodes [];
            NText Piece.actions_close ] [])
       (reflect n)
  = Ok (actions_writes (Actions n)).
Proof.
  rewrite exec_if.
  change (field (reflect n) "Actions")
    with (Ok (A:=value) (VSlice (map reflect_Action (Actions n)))).
  destruct (Actions n) as [|a l] eqn:E; [reflexivity|].
  cbn [map truth].
  erewrite exec_list_cons; [reflexivity|reflexivity|].
  erewrite exec_list_cons; [reflexivity| |reflexivity].
  rewrite exec_range.
  change (field (reflect n) "Actions")
    with (Ok (A:=value) (VSlice (map reflect_Action (Actions n)))).
  rewrite E. cbn [map].
  change (reflect_Action a :: map reflect_Action l)
    with (map reflect_Action (a :: l)).
  apply each_action.
Qed.

(** On the toast tree, and for every request, [Execute] succeeds and
    makes the writes [writes n]. *)
Lemma Execute_toast n :
  Execute (mkTemplate "toast" (Some toast_nodes)) (reflect n) = Ok (writes n).
Proof.
  unfold Execute. cbn [tree]. unfold toast_nodes, writes.
  repeat first
    [ reflexivity
    | apply exec_list_cons;
      [ first [ apply exec_actions
              | eapply exec_if_string; reflexivity
              | reflexivity ] | ] ].
Qed.

End Engine.

Lemma buildXML_init n w :
  buildXML n (snd (init w)) = (Returns (render n, None), snd (init w)).
Proof.
  unfold buildXML. rewrite init_template, Execute_toast. reflexivity.
Qed.

(** ** Strings: append and occurrences *)

Section Strings.

Lemma append_nil (b : string) : "" +:+ b = b.
Proof. reflexivity. Qed.

Lemma append_cons (x : ascii) (a b : string) :
  String x a +:+ b = String x (a +:+ b).
Proof. reflexivity. Qed.

Lemma append_assoc (a b c : string) : (a +:+ b) +:+ c = a +:+ (b +:+ c).
Proof.
  induction a as [|x a IH]; [reflexivity|].
  rewrite !append_cons, IH. reflexivity.
Qed.

Lemma append_empty_r (a : string) : a +:+ "" = a.
Proof.
  induction a as [|x a IH]; [reflexivity|].
  rewrite append_cons, IH. reflexivity.
Qed.

Lemma flat_app (a b : list Template.write) :
  Template.flat (a ++ b) = Template.flat a +:+ Template.flat b.
Proof.
  induction a as [|x a IH]; [reflexivity|].
  cbn [app Template.flat]. rewrite IH. symmetry. apply append_assoc.
Qed.

Lemma concat_app (a b : list string) :
  Str.concat (a ++ b) = Str.concat a +:+ Str.concat b.
Proof.
  induction a as [|x a IH]; [reflexivity|].
  cbn [app Str.concat]. rewrite IH. symmetry. apply append_assoc.
Qed.

Lemma eqb_sym (a b : ascii) : Ascii.eqb a b = Ascii.eqb b a.
Proof.
  destruct (Ascii.eqb_spec a b) as [->|Hne].
  - symmetry. apply Ascii.eqb_refl.
  - symmetry. apply Ascii.eqb_neq. congruence.
Qed.

Lemma starts_app_unmatched (m a b : string) :
  match b with
  | EmptyString => True
  | String c _ => Str.has c m = false
  end ->
  Str.starts m (a +:+ b) = Str.starts m a.
Proof.
  revert a. induction m as [|p m IH]; intros a Hb; [destruct a; reflexivity|].
  destruct a as [|x a]; [rewrite append_nil | rewrite append_cons]; simpl.
  - destruct b as [|c b]; [reflexivity|].
    simpl in Hb. apply orb_false_elim in Hb as [Hc _].
    rewrite eqb_sym, Hc. reflexivity.
  - rewrite IH; [reflexivity|].
    destruct b as [|c b]; [exact I|].
    simpl in Hb. apply orb_false_elim in Hb as [_ Hc]. exact Hc.
Qed.

Lemma occurrences_app_safe (m a b : string) :
  safe_start m b = true ->
  Str.occurrences m (a +:+ b) = Str.occurrences m a + Str.occurrences m b.
Proof.
  intros Hb. induction a as [|x a IH]; [reflexivity|].
  rewrite append_cons. cbn [Str.occurrences]. rewrite IH.
  assert (Str.starts m (String x (a +:+ b)) = Str.starts m (String x a)) as ->;
    [|lia].
  destruct m as [|p m]; [reflexivity|].
  cbn [Str.starts]. f_equal.
  apply starts_app_unmatched.
  destruct b as [|c b]; [exact I|].
  simpl in Hb. apply negb_true_iff in Hb. exact Hb.
Qed.

Lemma starts_app_decided (m s b : string) :
  Str.starts m s || negb (Str.starts s m) = true ->
  Str.starts m (s +:+ b) = Str.starts m s.
Proof.
  revert s. induction m as [|p m IH]; intros s H; [destruct s; reflexivity|].
  destruct s as [|x s]; [discriminate H|].
  rewrite append_cons. cbn [Str.starts] in *.
  destruct (Ascii.eqb p x) eqn:E; [|reflexivity].
  rewrite eqb_sym, E in H. cbn [andb] in *. apply IH, H.
Qed.

Lemma occurrences_app_closed (m a b : string) :
  closed m a = true ->
  Str.occurrences m (a +:+ b) = Str.occurrences m a + Str.occurrences m b.
Proof.
  induction a as [|x a IH]; intros Hc; [reflexivity|].
  cbn [closed] in Hc. apply andb_true_iff in Hc as [Hd Hc].
  rewrite append_cons. cbn [Str.occurrences]. rewrite (IH Hc).
  rewrite <- append_cons, (starts_app_decided _ _ _ Hd). lia.
Qed.

(** A longer needle occurs where its prefix does. *)
Lemma starts_longer (m x s : string) :
  Str.starts (m +:+ x) s = true -> Str.starts m s = true.
Proof.
  revert s. induction m as [|p m IH]; intros s H; [destruct s; reflexivity|].
  destruct s as [|c s]; [discriminate H|].
  rewrite append_cons in H. cbn [Str.starts] in *.
  apply andb_true_iff in H as [-> H]. apply IH, H.
Qed.

Lemma occurrences_longer (m x s : string) :
  Str.occurrences m s = 0 -> Str.occurrences (m +:+ x) s = 0.
Proof.
  induction s as [|c s IH]; [reflexivity|].
  cbn [Str.occurrences]. intros H.
  destruct (Str.starts m (String c s)) eqn:E; [discriminate H|].
  destruct (Str.starts (m +:+ x) (String c s)) eqn:E'.
  - apply starts_longer in E'. congruence.
  - apply IH. exact H.
Qed.

End Strings.

(** ** Counting occurrences in a sequence of writes *)

Section Counting.

Import Template.

Variable m : string.

Lemma follows_flat r : follows m r = true -> safe_start m (flat r) = true.
Proof.
  destruct r as [|[s|v] r]; simpl; intros H; [reflexivity| |discriminate H].
  apply andb_true_iff in H as [Hs H].
  destruct s; [discriminate Hs | exact H].
Qed.

Lemma occurrences_flat ws :
  Forall (good m) ws -> spaced m ws = true -> Str.occurrences m (flat ws) = counted m ws.
Proof.
  induction ws as [|[s|v] r IH]; intros Hg Hs; [reflexivity| |];
    apply Forall_cons in Hg as [Hx Hg]; simpl in Hx, Hs |- *.
  - rewrite (occurrences_app_closed _ _ _ Hx), (IH Hg Hs). reflexivity.
  - apply andb_true_iff in Hs as [Hf Hs].
    rewrite (occurrences_app_safe _ _ _ (follows_flat _ Hf)), Hx, (IH Hg Hs).
    reflexivity.
Qed.

Lemma spaced_app a x b :
  spaced m a = true -> follows m [Lit x] = true -> spaced m b = true ->
  spaced m (a ++ Lit x :: b) = true.
Proof.
  intros Ha Hx Hb. induction a as [|[s|v] a IH]; simpl in *; [exact Hb|auto|].
  apply andb_true_iff in Ha as [Hf Ha]. rewrite (IH Ha), andb_true_r.
  destruct a as [|y a]; [exact Hx | exact Hf].
Qed.

Lemma counted_app a b : counted m (a ++ b) = counted m a + counted m b.
Proof.
  induction a as [|[s|v] a IH]; simpl; [reflexivity| |exact IH].
  rewrite IH. lia.
Qed.

End Counting.

(** ** Counting a marker in the rendered text *)

Section Markers.

Import Template.

Variable m : string.
Hypothesis marker_ok : countable_marker m = true.

Lemma piece_closed s : In s all_pieces -> closed m s = true.
Proof.
  apply andb_true_iff in marker_ok as [H _].
  intros Hin. exact (proj1 (forallb_forall _ _) H s Hin).
Qed.

Lemma piece_follows s r : In s following_pieces -> follows m (Lit s :: r) = true.
Proof.
  apply andb_true_iff in marker_ok as [_ H].
  intros Hin. exact (proj1 (forallb_forall _ _) H s Hin).
Qed.

Ltac piece := cbn [In all_pieces following_pieces]; auto 20.

Lemma action_writes_good a :
  Forall (fun v => Str.occurrences m v = 0) (action_values a) ->
  Forall (good m) (action_writes a).
Proof.
  intros H. apply Forall_cons in H as [Ht H]. apply Forall_cons in H as [Hl H].
  apply Forall_cons in H as [Ha _].
  unfold action_writes.
  repeat (apply Forall_cons; split; [cbn [good] |]); try constructor;
    first [ assumption | apply piece_closed; piece ].
Qed.

Lemma actions_good l :
  Forall (fun v => Str.occurrences m v = 0) (flat_map action_values l) ->
  Forall (good m) (flat_map action_writes l).
Proof.
  induction l as [|a l IH]; intros H; [constructor|].
  cbn [flat_map] in *. apply Forall_app in H as [Ha H].
  apply Forall_app. split; [apply action_writes_good, Ha | apply IH, H].
Qed.

Lemma actions_writes_good l :
  Forall (fun v => Str.occurrences m v = 0) (flat_map action_values l) ->
  Forall (good m) (actions_writes l).
Proof.
  intros H. destruct l as [|a l]; [constructor|].
  unfold actions_writes.
  apply Forall_app; split; [ | apply Forall_app; split ];
    [ | apply actions_good, H | ];
    (apply Forall_cons; split; [apply piece_closed; piece | constructor]).
Qed.

Lemma writes_good n : free m n -> Forall (good m) (writes n).
Proof.
  unfold free, values. intros H.
  apply Forall_app in H as [H Hact].
  apply Forall_cons in H as [Hid H]. apply Forall_cons in H as [Hti H].
  apply Forall_cons in H as [Hme H]. apply Forall_cons in H as [Hic _].
  unfold writes.
  repeat (apply Forall_app; split);
    try (apply Forall_cons; split; [apply piece_closed; piece | constructor]);
    try (apply actions_writes_good, Hact);
    unfold app_id_writes, icon_writes, text_writes;
    destruct (nonempty _);
    repeat first
      [ apply Forall_nil; exact I
      | apply Forall_cons; split;
        [ cbn [good]; first [ assumption | apply piece_closed; piece ] | ] ].
Qed.

Lemma actions_spaced l r :
  spaced m r = true -> spaced m (flat_map action_writes l ++ r) = true.
Proof.
  intros Hr. induction l as [|a l IH]; [exact Hr|].
  cbn [flat_map action_writes app spaced].
  rewrite !piece_follows by piece. exact IH.
Qed.

Lemma actions_writes_spaced l : spaced m (actions_writes l) = true.
Proof.
  destruct l as [|a l]; [reflexivity|].
  unfold actions_writes. cbn [app spaced].
  apply actions_spaced. reflexivity.
Qed.

Lemma writes_spaced n : spaced m (writes n) = true.
Proof.
  unfold writes. cbn [app spaced].
  repeat (apply spaced_app; [ | apply piece_follows; piece | ]);
    try reflexivity; try apply actions_writes_spaced;
    unfold app_id_writes, icon_writes, text_writes;
    destruct (nonempty _); cbn [spaced];
    rewrite ?piece_follows by piece; reflexivity.
Qed.

(** The occurrences of [m] in the rendered text are those in the
    template text written, when no field value contains [m]. *)
Lemma occurrences_render n :
  free m n -> Str.occurrences m (render n) = counted m (writes n).
Proof.
  intros H. apply occurrences_flat; [apply writes_good, H | apply writes_spaced].
Qed.

Lemma counted_actions l :
  counted m (flat_map action_writes l)
  = length l * counted m (action_writes (mkAction "" "" "")).
Proof.
  induction l as [|a l IH]; [reflexivity|].
  cbn [flat_map length]. rewrite counted_app, IH. cbn. lia.
Qed.

End Markers.

(** ** The rendered script *)

(** Evaluate the occurrences of a marker in each piece of template text. *)
Ltac count_pieces :=
  repeat match goal with
  | |- context [Str.occurrences ?m ?s] =>
      let k := eval vm_compute in (Str.occurrences m s) in
      replace (Str.occurrences m s) with k by (vm_compute; reflexivity)
  end.

Section Rendered.

Import Template.

Lemma free_longer m x n : free m n -> free (m +:+ x) n.
Proof.
  unfold free. intros H. eapply Forall_impl; [exact H|].
  intros v. apply occurrences_longer.
Qed.

Lemma contains_refl s : contains s s.
Proof. exists "", "". rewrite append_empty_r. reflexivity. Qed.

Lemma contains_app_l s a b : contains s a -> contains s (a +:+ b).
Proof.
  intros (pre & post & ->). exists pre, (post +:+ b).
  rewrite !append_assoc. reflexivity.
Qed.

Lemma contains_app_r s a b : contains s b -> contains s (a +:+ b).
Proof.
  intros (pre & post & ->). exists (a +:+ pre), post.
  rewrite !append_assoc. reflexivity.
Qed.

Lemma flat_action a :
  flat (action_writes a) = action_indent +:+ action_element a +:+ action_indent.
Proof.
  unfold action_writes, action_element, Str.quoted. cbn [flat bytes_of].
  rewrite !append_assoc. reflexivity.
Qed.

Lemma flat_actions l :
  flat (flat_map action_writes l)
  = Str.concat (map (fun a => action_indent +:+ action_element a +:+ action_indent) l).
Proof.
  induction l as [|a l IH]; [reflexivity|].
  cbn [flat_map map Str.concat]. rewrite flat_app, flat_action, IH, !append_assoc.
  reflexivity.
Qed.

Lemma counted_action_elements n :
  counted "<action " (writes n) = length (Actions n).
Proof.
  unfold writes, app_id_writes, icon_writes, text_writes, actions_writes.
  rewrite !counted_app.
  destruct (nonempty (AppID n)), (nonempty (Icon n)), (nonempty (Title n)),
    (nonempty (Message n)), (Actions n) as [|a l];
    rewrite ?counted_app, ?counted_actions; cbn [counted action_writes length];
    count_pieces; lia.
Qed.

End Rendered.

(** ** Claims about the rendered script *)

Lemma counted_text_elements n :
  counted "<text" (writes n)
  = Nat.b2n (nonempty (Title n)) + Nat.b2n (nonempty (Message n)).
Proof.
  unfold writes, app_id_writes, icon_writes, text_writes, actions_writes.
  rewrite !counted_app.
  destruct (nonempty (AppID n)), (nonempty (Icon n)), (nonempty (Title n)),
    (nonempty (Message n)), (Actions n) as [|a l];
    rewrite ?counted_app, ?counted_actions;
    cbn [counted action_writes length Nat.b2n];
    count_pieces; lia.
Qed.

Lemma counted_image_elements n :
  counted "<image" (writes n) = Nat.b2n (nonempty (Icon n)).
Proof.
  unfold writes, app_id_writes, icon_writes, text_writes, actions_writes.
  rewrite !counted_app.
  destruct (nonempty (AppID n)), (nonempty (Icon n)), (nonempty (Title n)),
    (nonempty (Message n)), (Actions n) as [|a l];
    rewrite ?counted_app, ?counted_actions;
    cbn [counted action_writes length Nat.b2n];
    count_pieces; lia.
Qed.

Lemma counted_actions_block n :
  Actions n = [] -> counted "<actions>" (writes n) = 0.
Proof.
  intros E.
  unfold writes, app_id_writes, icon_writes, text_writes. rewrite E.
  rewrite !counted_app.
  destruct (nonempty (AppID n)), (nonempty (Icon n)), (nonempty (Title n)),
    (nonempty (Message n));
    cbn [counted actions_writes];
    count_pieces; lia.
Qed.

Lemma contains_actions n :
  contains
    (Str.concat (map (fun a => action_indent +:+ action_element a +:+ action_indent)
                     (Actions n)))
    (render n).
Proof.
  rewrite <- flat_actions. unfold render, writes, actions_writes.
  destruct (Actions n) as [|a l].
  - exists "". eexists. reflexivity.
  - rewrite !flat_app.
    do 9 apply contains_app_r. apply contains_app_l.
    apply contains_app_r, contains_app_l, contains_refl.
Qed.

(** C1, as amended.  For every request none of whose field values contains
    the text [<action], the rendered script has exactly as many
    occurrences of [<action ] as the request has actions; it contains the
    action elements of the buttons, each with its Type, Label and
    Arguments as they are, one after the other in the order of [Actions];
    and with no action it has no [<actions>] block. *)
Theorem action_elements_of_markup_free_request n w :
  free "<action" n ->
  exists out,
    fst (buildXML n (snd (init w))) = Returns (out, None)
    /\ Str.occurrences "<action " out = length (Actions n)
    /\ contains
         (Str.concat
            (map (fun a => action_indent +:+ action_element a +:+ action_indent)
                 (Actions n)))
         out
    /\ (Actions n = [] -> Str.occurrences "<actions>" out = 0).
Proof.
  intros Hfree. exists (render n). rewrite buildXML_init.
  split; [reflexivity|]. split; [|split].
  - rewrite occurrences_render;
      [apply counted_action_elements | vm_compute; reflexivity |].
    apply (free_longer "<action" " "), Hfree.
  - apply contains_actions.
  - intros E. rewrite occurrences_render;
      [apply counted_actions_block, E | vm_compute; reflexivity |].
    apply (free_longer "<action" "s>"), Hfree.
Qed.

Lemma action_elements_witness :
  free "<action" Sample.build
  /\ exists out,
       fst (buildXML Sample.build Sample.world) = Returns (out, None)
       /\ Str.occurrences "<action " out = 1.
Proof.
  assert (free "<action" Sample.build) as Hfree
    by (unfold free; vm_compute; repeat constructor).
  split; [exact Hfree|].
  destruct (action_elements_of_markup_free_request Sample.build Sample.blank Hfree)
    as (out & E & Hn & _).
  exists out. split; [exact E | exact Hn].
Defined.

(** C1, as stated, fails: a request without actions whose Title carries
    the text of an action element renders to a script that contains an
    action element. *)
Lemma action_element_without_action :
  exists out,
    fst (buildXML (markup_in_title "<action />") Sample.world) = Returns (out, None)
    /\ Str.occurrences "<action " out <> length (Actions (markup_in_title "<action />")).
Proof.
  eexists. split; [vm_compute; reflexivity|].
  vm_compute. discriminate.
Qed.

(** C3, as amended.  For every request none of whose field values contains
    the text [<text] or [<image], the rendered output has one text element
    for a non-empty Title and one for a non-empty Message, and no other;
    it has one image element for a non-empty Icon, and no other.  So an
    empty Title, Message or Icon leaves its element out. *)
Theorem text_and_image_elements_of_markup_free_request n w :
  free "<text" n -> free "<image" n ->
  exists out,
    fst (buildXML n (snd (init w))) = Returns (out, None)
    /\ Str.occurrences "<text" out
       = Nat.b2n (nonempty (Title n)) + Nat.b2n (nonempty (Message n))
    /\ Str.occurrences "<image" out = Nat.b2n (nonempty (Icon n))
    /\ (Title n = "" -> Str.occurrences "<text" out = Nat.b2n (nonempty (Message n)))
    /\ (Message n = "" -> Str.occurrences "<text" out = Nat.b2n (nonempty (Title n)))
    /\ (Icon n = "" -> Str.occurrences "<image" out = 0).
Proof.
  intros Htext Himage. exists (render n). rewrite buildXML_init.
  assert (Str.occurrences "<text" (render n)
          = Nat.b2n (nonempty (Title n)) + Nat.b2n (nonempty (Message n))) as Ht.
  { rewrite occurrences_render;
      [apply counted_text_elements | vm_compute; reflexivity | exact Htext]. }
  assert (Str.occurrences "<image" (render n) = Nat.b2n (nonempty (Icon n))) as Hi.
  { rewrite occurrences_render;
      [apply counted_image_elements | vm_compute; reflexivity | exact Himage]. }
  split; [reflexivity|]. split; [exact Ht|]. split; [exact Hi|].
  split; [|split].
  - intros E. rewrite Ht, E. reflexivity.
  - intros E. rewrite Ht, E. cbn. lia.
  - intros E. rewrite Hi, E. reflexivity.
Qed.

Lemma text_and_image_elements_witness :
  free "<text" Sample.build /\ free "<image" Sample.build
  /\ exists out,
       fst (buildXML Sample.build Sample.world) = Returns (out, None)
       /\ Str.occurrences "<text" out = 2
       /\ Str.occurrences "<image" out = 0.
Proof.
  assert (free "<text" Sample.build) as Ht
    by (unfold free; vm_compute; repeat constructor).
  assert (free "<image" Sample.build) as Hi
    by (unfold free; vm_compute; repeat constructor).
  split; [exact Ht|]. split; [exact Hi|].
  destruct (text_and_image_elements_of_markup_free_request
              Sample.build Sample.blank Ht Hi) as (out & E & Hn & Hm & _).
  exists out. split; [exact E|]. split; [exact Hn | exact Hm].
Defined.

(** C3, as stated, fails: a request with an empty Icon whose Title carries
    the text of an image element renders to an output that contains an
    image element. *)
Lemma image_element_without_icon :
  exists out,
    fst (buildXML (markup_in_title "<image src='x' />") Sample.world)
      = Returns (out, None)
    /\ Icon (markup_in_title "<image src='x' />") = ""
    /\ Str.occurrences "<image" out <> 0.
Proof.
  eexists. split; [vm_compute; reflexivity|].
  split; [reflexivity|]. vm_compute. discriminate.
Qed.

Section Verbatim.

Import Template.

Lemma preamble_declares : Piece.preamble = type_loads +:+ "$APP_ID = '".
Proof. vm_compute. reflexivity. Qed.

Lemma binding_open_quote : exists rest, Piece.binding_open = "'" +:+ rest.
Proof. eexists. unfold Piece.binding_open. cbn [Str.unlines]. reflexivity. Qed.

Lemma render_shape n :
  exists r,
    render n
    = Piece.preamble +:+ flat (app_id_writes n) +:+ Piece.binding_open +:+ r.
Proof.
  eexists. unfold render, writes. cbn [app flat bytes_of].
  rewrite flat_app. cbn [flat bytes_of]. reflexivity.
Qed.

Lemma render_declares n :
  exists rest,
    render n
    = type_loads
      +:+ app_id_line (if nonempty (AppID n) then AppID n
                       else Piece.default_app_id)
      +:+ rest.
Proof.
  destruct binding_open_quote as (bo & Ebo).
  destruct (render_shape n) as (r & ->).
  exists (bo +:+ r).
  rewrite preamble_declares, Ebo. unfold app_id_writes, app_id_line.
  destruct (nonempty (AppID n)); cbn [flat bytes_of];
    rewrite !append_assoc, ?append_empty_r; reflexivity.
Qed.

End Verbatim.

(** C4.  With an empty AppID the script declares [$APP_ID] as the fixed
    identifier [io.github.go-toast.toast], right after the type-loading
    lines; with a non-empty AppID it declares that AppID there. *)
Theorem app_id_declaration n w :
  (AppID n = "" ->
   exists rest,
     fst (buildXML n (snd (init w)))
     = Returns (type_loads +:+ app_id_line "io.github.go-toast.toast" +:+ rest, None))
  /\ (AppID n <> "" ->
      exists rest,
        fst (buildXML n (snd (init w)))
        = Returns (type_loads +:+ app_id_line (AppID n) +:+ rest, None)).
Proof.
  rewrite buildXML_init. destruct (render_declares n) as (rest & E).
  split; intros H; exists rest; cbn [fst]; rewrite E; repeat f_equal.
  - rewrite H. reflexivity.
  - destruct (AppID n); [congruence | reflexivity].
Qed.

Lemma app_id_declaration_witness :
  AppID Sample.build = ""
  /\ (exists rest,
        fst (buildXML Sample.build Sample.world)
        = Returns (type_loads +:+ app_id_line "io.github.go-toast.toast" +:+ rest, None))
  /\ AppID with_metacharacters <> ""
  /\ (exists rest,
        fst (buildXML with_metacharacters Sample.world)
        = Returns (type_loads +:+ app_id_line "it's <me>" +:+ rest, None)).
Proof.
  split; [reflexivity|].
  split; [apply (proj1 (app_id_declaration Sample.build Sample.blank)); reflexivity|].
  split; [discriminate|].
  apply (proj2 (app_id_declaration with_metacharacters Sample.blank)). discriminate.
Defined.

Section Elements.

Import Template.

Lemma nonempty_true s : s <> "" -> nonempty s = true.
Proof. destruct s; [congruence | reflexivity]. Qed.

Lemma flat_text s :
  nonempty s = true ->
  flat (text_writes s) = Piece.gap +:+ text_element s +:+ Piece.gap.
Proof.
  intros H. unfold text_writes. rewrite H. cbn [flat bytes_of].
  assert (Piece.text_open = Piece.gap +:+ "<text>") as -> by (vm_compute; reflexivity).
  assert (Piece.text_close = "</text>" +:+ Piece.gap) as -> by (vm_compute; reflexivity).
  unfold text_element. rewrite !append_assoc, append_empty_r. reflexivity.
Qed.

Lemma flat_icon n :
  nonempty (Icon n) = true ->
  flat (icon_writes n) = Piece.gap +:+ image_element (Icon n) +:+ Piece.gap.
Proof.
  intros H. unfold icon_writes. rewrite H. cbn [flat bytes_of].
  assert (Piece.image_open
          = Piece.gap +:+ "<image placement=" +:+ Str.quoted "appLogoOverride"
            +:+ " src=" +:+ Str.dq) as -> by (vm_compute; reflexivity).
  assert (Piece.image_close = Str.dq +:+ " />" +:+ Piece.gap) as ->
    by (vm_compute; reflexivity).
  unfold image_element, Str.quoted.
  rewrite !append_assoc, append_empty_r. reflexivity.
Qed.

Lemma contains_action a l :
  In a l -> contains (action_element a) (flat (flat_map action_writes l)).
Proof.
  induction l as [|b l IH]; intros Hin; [destruct Hin|].
  cbn [flat_map]. rewrite flat_app.
  destruct Hin as [->|Hin].
  - apply contains_app_l. rewrite flat_action.
    apply contains_app_r, contains_app_l, contains_refl.
  - apply contains_app_r, IH, Hin.
Qed.

(** Every write is a piece of the template text or a field value. *)
Lemma writes_origin n :
  Forall (fun x => match x with
                   | Lit s => In s all_pieces
                   | Val v => In v (values n)
                   end) (writes n).
Proof.
  assert (forall l, Forall (fun x => match x with
                                     | Lit s => In s all_pieces
                                     | Val v => In v (flat_map action_values l)
                                     end) (flat_map action_writes l)) as Hact.
  { induction l as [|a l IH]; [constructor|].
    cbn [flat_map]. apply Forall_app. split.
    - unfold action_writes, action_values.
      repeat (apply Forall_cons; split;
              [cbn [In all_pieces app]; auto 20|]); constructor.
    - eapply Forall_impl; [exact IH|]. intros [s|v]; [auto|].
      intros Hv. apply in_or_app. right. exact Hv. }
  unfold writes, values, app_id_writes, icon_writes, text_writes, actions_writes.
  repeat (apply Forall_app; split);
    try (apply Forall_cons; split; [cbn [In all_pieces]; auto 20 | constructor]).
  - destruct (nonempty _);
      (apply Forall_cons; split; [cbn [In all_pieces app]; auto 20 | constructor]).
  - destruct (nonempty _);
      repeat (apply Forall_cons; split; [cbn [In all_pieces app]; auto 20|]);
      constructor.
  - destruct (nonempty _);
      repeat (apply Forall_cons; split; [cbn [In all_pieces app]; auto 20|]);
      constructor.
  - destruct (nonempty _);
      repeat (apply Forall_cons; split; [cbn [In all_pieces app]; auto 20|]);
      constructor.
  - destruct (Actions n) as [|a l]; [constructor|].
    apply Forall_app; split;
      [apply Forall_cons; split; [cbn [In all_pieces]; auto 20 | constructor]|].
    apply Forall_app; split;
      [|apply Forall_cons; split; [cbn [In all_pieces]; auto 20 | constructor]].
    eapply Forall_impl; [apply Hact|]. intros [s|v]; [auto|].
    intros Hv. apply in_or_app. right. exact Hv.
Qed.

End Elements.

(** C5.  Rendering applies no escaping and no other transformation: the
    output is made of pieces of the template text and of field values as
    they are, and each non-empty AppID, Title, Message and Icon, and the
    Type, Label and Arguments of each action, stands character for
    character in its place: the declaration of [$APP_ID], a text element,
    the image element, an action element. *)
Theorem field_values_verbatim n w :
  exists out,
    fst (buildXML n (snd (init w))) = Returns (out, None)
    /\ (exists ws,
          out = Template.flat ws
          /\ Forall (fun x => match x with
                              | Template.Lit s => In s all_pieces
                              | Template.Val v => In v (values n)
                              end) ws)
    /\ (AppID n <> "" -> contains (app_id_line (AppID n)) out)
    /\ (Title n <> "" -> contains (text_element (Title n)) out)
    /\ (Message n <> "" -> contains (text_element (Message n)) out)
    /\ (Icon n <> "" -> contains (image_element (Icon n)) out)
    /\ (forall a, In a (Actions n) -> contains (action_element a) out).
Proof.
  exists (render n). rewrite buildXML_init. split; [reflexivity|].
  split; [exists (writes n); split; [reflexivity | apply writes_origin]|].
  split; [|split; [|split; [|split]]].
  - intros H. destruct (render_declares n) as (rest & ->).
    rewrite (nonempty_true _ H).
    apply contains_app_r, contains_app_l, contains_refl.
  - intros H. unfold render, writes. rewrite !flat_app.
    do 5 apply contains_app_r. apply contains_app_l.
    rewrite (flat_text _ (nonempty_true _ H)).
    apply contains_app_r, contains_app_l, contains_refl.
  - intros H. unfold render, writes. rewrite !flat_app.
    do 7 apply contains_app_r. apply contains_app_l.
    rewrite (flat_text _ (nonempty_true _ H)).
    apply contains_app_r, contains_app_l, contains_refl.
  - intros H. unfold render, writes. rewrite !flat_app.
    do 3 apply contains_app_r. apply contains_app_l.
    rewrite (flat_icon _ (nonempty_true _ H)).
    apply contains_app_r, contains_app_l, contains_refl.
  - intros a Hin. unfold render, writes. rewrite !flat_app.
    do 9 apply contains_app_r. apply contains_app_l.
    unfold actions_writes. destruct (Actions n) as [|b l]; [destruct Hin|].
    rewrite !flat_app.
    apply contains_app_r, contains_app_l, contains_action, Hin.
Qed.

Lemma field_values_verbatim_witness :
  AppID with_metacharacters <> ""
  /\ Title with_metacharacters <> ""
  /\ exists out,
       fst (buildXML with_metacharacters Sample.world) = Returns (out, None)
       /\ contains (app_id_line "it's <me>") out
       /\ contains ("<text><b>" +:+ Str.quoted "x" +:+ "</b></text>") out.
Proof.
  assert (AppID with_metacharacters <> "") as Ha by discriminate.
  assert (Title with_metacharacters <> "") as Ht by discriminate.
  split; [exact Ha|]. split; [exact Ht|].
  destruct (field_values_verbatim with_metacharacters Sample.blank)
    as (out & E & _ & Hid & Hti & _).
  exists out. split; [exact E|]. split; [exact (Hid Ha) | exact (Hti Ht)].
Defined.

(** ** The script invoker *)

Section Invoker.

Lemma set_files_id w : set_files (files w) w = w.
Proof. destruct w. reflexivity. Qed.

Lemma Remove_after env (fs : gmap string File) w :
  delete (temp_file env) fs = delete (temp_file env) (files w) ->
  snd (os.Remove (temp_file env) (set_files fs w))
  = set_files (delete (temp_file env) (files w)) w.
Proof.
  intros E. unfold os.Remove. cbn [files set_files].
  destruct (fs !! temp_file env) eqn:L; cbn [snd].
  - unfold set_files. cbn. rewrite E. reflexivity.
  - rewrite <- E, (delete_id _ _ L). reflexivity.
Qed.

(** [invokeTemporaryScript] returns the error of the write, else that of
    the run, and leaves the files as they were, less the temporary
    file. *)
Lemma invoke_eq env content w :
  invokeTemporaryScript env content w
  = (Returns (invoke_error env),
     set_files (delete (temp_file env) (files w)) w).
Proof.
  unfold invokeTemporaryScript, uuid.NewV4, uuid.String_, bind, defer, ret.
  fold (temp_file env).
  unfold ioutil.WriteFile, exec.Run, invoke_error, run_error.
  destruct (write_outcome env) as [|e [part|]].
  - destruct (run_outcome env) as [e|[|st|st]]; cbn [fst snd];
      f_equal; apply Remove_after, delete_insert_eq.
  - cbn [fst snd]. f_equal. apply Remove_after, delete_insert_eq.
  - cbn [fst snd]. f_equal.
    rewrite <- (set_files_id w) at 1. apply Remove_after. reflexivity.
Qed.

End Invoker.

(** C6.  Whatever the write and the interpreter run do (success, failed
    write with or without a truncated file left behind, interpreter not
    started, non-zero exit), [invokeTemporaryScript] returns, and when it
    has returned the temporary file is not there and every file that is
    there was there before, unchanged. *)
Theorem temporary_file_removed env content w :
  (exists r, fst (invokeTemporaryScript env content w) = Returns r)
  /\ files (snd (invokeTemporaryScript env content w)) !! temp_file env = None
  /\ (forall p f,
        files (snd (invokeTemporaryScript env content w)) !! p = Some f ->
        files w !! p = Some f).
Proof.
  rewrite invoke_eq. cbn [fst snd files set_files].
  split; [eexists; reflexivity|]. split.
  - apply lookup_delete_eq.
  - intros p f H. destruct (decide (temp_file env = p)) as [<-|Hne].
    + rewrite lookup_delete_eq in H. discriminate H.
    + rewrite lookup_delete_ne in H by exact Hne. exact H.
Qed.

Lemma temporary_file_removed_witness :
  files (snd (invokeTemporaryScript Sample.hostile "script" Sample.world))
    !! temp_file Sample.hostile = None
  /\ files (snd (invokeTemporaryScript (Sample.exits 3) "script" Sample.world))
       !! temp_file (Sample.exits 3) = None.
Proof.
  split.
  - apply (temporary_file_removed Sample.hostile "script" Sample.world).
  - apply (temporary_file_removed (Sample.exits 3) "script" Sample.world).
Defined.

(** C7, as amended.  [invokeTemporaryScript] returns an error exactly when
    the write of the temporary file fails, or the file is written and the
    interpreter cannot be started or exits with a non-zero status; after
    exit status 0 it returns nil.  The error it returns after a non-zero
    exit is the [ExitError] of the run, which holds the exit status. *)
Theorem invoke_error_cases env content w :
  exists r,
    fst (invokeTemporaryScript env content w) = Returns r
    /\ (r <> None <->
        (exists e left, write_outcome env = WriteFailed e left)
        \/ (write_outcome env = Written
            /\ ((exists e, run_outcome env = NotStarted e)
                \/ (exists st, run_outcome env = Exited st /\ st <> 0%Z))))
    /\ (write_outcome env = Written -> run_outcome env = Exited 0%Z -> r = None)
    /\ (forall st,
          write_outcome env = Written -> run_outcome env = Exited st ->
          st <> 0%Z -> r = Some (ExitError st)).
Proof.
  exists (invoke_error env). rewrite invoke_eq. split; [reflexivity|].
  unfold invoke_error, run_error.
  destruct (write_outcome env) as [|e left].
  - destruct (run_outcome env) as [e|st].
    + split; [|split; [discriminate | discriminate]].
      split; [|discriminate]. intros _. right. eauto.
    + destruct st as [|p|p].
      * split; [|split; [reflexivity|]].
        -- split; [congruence|].
           intros [(e & l & H)|[_ [(e & H)|(st & H & Hst)]]];
             [discriminate H | discriminate H |].
           injection H as <-. congruence.
        -- intros st _ H Hst. injection H as <-. congruence.
      * split; [|split; [discriminate|]].
        -- split; [|discriminate]. intros _. right. split; [reflexivity|].
           right. exists (Zpos p). split; [reflexivity | discriminate].
        -- intros st _ H _. injection H as <-. reflexivity.
      * split; [|split; [discriminate|]].
        -- split; [|discriminate]. intros _. right. split; [reflexivity|].
           right. exists (Zneg p). split; [reflexivity | discriminate].
        -- intros st _ H _. injection H as <-. reflexivity.
  - split; [|split; [discriminate | discriminate]].
    split; [|discriminate]. intros _. left. eauto.
Qed.

Lemma invoke_error_cases_witness :
  write_outcome (Sample.exits 3) = Written
  /\ run_outcome (Sample.exits 3) = Exited 3
  /\ fst (invokeTemporaryScript (Sample.exits 3) "script" Sample.world)
     = Returns (Some (ExitError 3)).
Proof.
  split; [reflexivity|]. split; [reflexivity|].
  destruct (invoke_error_cases (Sample.exits 3) "script" Sample.world)
    as (r & -> & _ & _ & H).
  rewrite (H 3%Z); [reflexivity | reflexivity | reflexivity | discriminate].
Defined.

(** C7, as stated, fails: the exit status reaches the caller.  Two runs
    that differ only in the non-zero exit status of the interpreter return
    two different errors, each holding its status. *)
Lemma exit_status_reaches_caller :
  fst (invokeTemporaryScript (Sample.exits 1) "script" Sample.world)
    = Returns (Some (ExitError 1))
  /\ fst (invokeTemporaryScript (Sample.exits 2) "script" Sample.world)
     = Returns (Some (ExitError 2))
  /\ fst (invokeTemporaryScript (Sample.exits 1) "script" Sample.world)
     <> fst (invokeTemporaryScript (Sample.exits 2) "script" Sample.world).
Proof.
  rewrite !invoke_eq. cbn [fst].
  split; [reflexivity|]. split; [reflexivity|]. discriminate.
Qed.

(** Formatting a nil identifier is the panic that [NewV4] rules out. *)
Remark format_of_nil_panics w :
  exists msg, fst (uuid.String_ None w) = Panics msg.
Proof. eexists. reflexivity. Qed.



(** ** [Push] *)

Section Pushing.

Lemma fresh_handle (hs : gmap positive string) : hs !! fresh (dom hs) = None.
Proof. apply not_elem_of_dom, is_fresh. Qed.

Lemma buildXML_returns n w :
  exists xml err,
    buildXML n w = (Returns (xml, err), w) /\ (err <> None -> xml = "").
Proof.
  unfold buildXML. destruct (Template.Execute _ _) as [out|e].
  - exists (Template.flat out), None. split; [reflexivity | congruence].
  - exists "", (Some e). split; reflexivity.
Qed.

(** The world after the registry calls of [Push]. *)
Lemma registry_calls env n w :
  exists r w1,
    (if Persist n then
       bind (registry.CreateKey env registry.CURRENT_USER
               (settings_path +:+ AppID n) registry.ALL_ACCESS)
         (fun x => match x with
                   | (k, _, _) =>
                       bind (registry.SetDWordValue env k "ShowInActionCenter" 1%Z)
                         (fun _ => registry.Close k)
                   end)
     else
       registry.DeleteKey env registry.CURRENT_USER (settings_path +:+ AppID n)) w
    = (Returns r, w1)
    /\ toastTemplate w1 = toastTemplate w
    /\ files w1 = files w
    /\ handles w1 = handles w
    /\ (grants env ->
        keys w1 = if Persist n then persisted (persistence_key n) (keys w)
                  else delete (persistence_key n) (keys w)).
Proof.
  unfold grants, persistence_key, persisted.
  destruct (Persist n).
  - unfold bind, registry.CreateKey. cbn [Z.eqb registry.CURRENT_USER negb].
    rewrite Pos.eqb_refl. cbn [negb].
    destruct (create_refused env) as [e|] eqn:Ec.
    { eexists _, w. split; [reflexivity|]. repeat split; try reflexivity.
      intros (H & _). discriminate H. }
    set (h := fresh (dom (handles w))).
    assert (handles w !! h = None) as Hh by apply fresh_handle.
    destruct (keys w !! (settings_path +:+ AppID n)) as [vals|] eqn:Ek;
      unfold registry.SetDWordValue, registry.resolve;
      cbn [handles set_handles set_keys keys]; rewrite lookup_insert_eq;
      (destruct (set_refused env) as [e|] eqn:Es;
       [ unfold registry.Close; cbn [handles set_handles set_keys keys];
         rewrite lookup_insert_eq;
         eexists _, _; split; [reflexivity|];
         cbn [toastTemplate files handles keys set_handles set_keys];
         rewrite (delete_insert_id _ _ _ Hh);
         repeat split; try reflexivity; intros (_ & H & _); discriminate H
       | unfold registry.Close; cbn [handles set_handles set_keys keys];
         rewrite lookup_insert_eq;
         eexists _, _; split; [reflexivity|];
         cbn [toastTemplate files handles keys set_handles set_keys];
         rewrite (delete_insert_id _ _ _ Hh);
         repeat split; try reflexivity; intros _ ]).
    + rewrite Ek. reflexivity.
    + rewrite lookup_insert_eq, insert_insert_eq. reflexivity.
  - unfold registry.DeleteKey. cbn [Z.eqb registry.CURRENT_USER negb].
    rewrite Pos.eqb_refl. cbn [negb].
    destruct (delete_refused env) as [e|] eqn:Ed.
    { eexists _, w. split; [reflexivity|]. repeat split; try reflexivity.
      intros (_ & _ & H). discriminate H. }
    destruct (keys w !! (settings_path +:+ AppID n)) as [vals|] eqn:Ek.
    + eexists _, _. split; [reflexivity|]. repeat split; reflexivity.
    + eexists _, w. split; [reflexivity|]. repeat split; try reflexivity.
      intros _. symmetry. apply delete_id, Ek.
Qed.

(** [Push] returns what the invoker returns, and its effect is that of
    the registry calls and the removal of the temporary file. *)
Lemma Push_eq env n w :
  exists w1,
    Push env n w
    = (Returns (invoke_error env),
       set_files (delete (temp_file env) (files w)) w1)
    /\ toastTemplate w1 = toastTemplate w
    /\ files w1 = files w
    /\ handles w1 = handles w
    /\ (grants env ->
        keys w1 = if Persist n then persisted (persistence_key n) (keys w)
                  else delete (persistence_key n) (keys w)).
Proof.
  destruct (registry_calls env n w) as (r & w1 & E & Ht & Hf & Hh & Hk).
  exists w1. split; [|auto].
  unfold Push. unfold bind at 1. rewrite E.
  destruct (buildXML_returns n w1) as (xml & err & Eb & _).
  unfold bind. rewrite Eb, invoke_eq, Hf. reflexivity.
Qed.

End Pushing.

(** C2.  [Push] returns exactly what [invokeTemporaryScript] returns on
    the rendered text, the error unchanged; when rendering fails the text
    is the empty string and [Push] goes on with it; and what the registry
    calls answer has no part in the result, which depends on the outcome
    of the write and of the run only. *)
Theorem push_returns_invoker_error env n w :
  exists xml err,
    fst (buildXML n w) = Returns (xml, err)
    /\ (err <> None -> xml = "")
    /\ (forall w', fst (Push env n w) = fst (invokeTemporaryScript env xml w'))
    /\ (forall env' w',
          write_outcome env' = write_outcome env ->
          run_outcome env' = run_outcome env ->
          fst (Push env' n w') = fst (Push env n w)).
Proof.
  destruct (buildXML_returns n w) as (xml & err & Eb & Hempty).
  exists xml, err. rewrite Eb. split; [reflexivity|]. split; [exact Hempty|].
  destruct (Push_eq env n w) as (w1 & -> & _).
  split.
  - intros w'. rewrite invoke_eq. reflexivity.
  - intros env' w' Hw Hr.
    destruct (Push_eq env' n w') as (w1' & -> & _). cbn [fst].
    unfold invoke_error, run_error. rewrite Hw, Hr. reflexivity.
Qed.

Lemma push_returns_invoker_error_witness :
  fst (buildXML Sample.build Sample.blank)
    = Returns ("", Some (TemplateError "incomplete or empty template"))
  /\ fst (Push Sample.hostile Sample.persistent Sample.blank)
     = Returns (Some (PathError "open" "disk full"))
  /\ fst (Push (Sample.exits 0) Sample.transient Sample.blank) = Returns None.
Proof.
  split; [reflexivity|]. split.
  - destruct (push_returns_invoker_error Sample.hostile Sample.persistent Sample.blank)
      as (xml & err & _ & _ & H & _).
    rewrite (H Sample.blank), invoke_eq. reflexivity.
  - destruct (push_returns_invoker_error (Sample.exits 0) Sample.transient Sample.blank)
      as (xml & err & _ & _ & H & _).
    rewrite (H Sample.blank), invoke_eq. reflexivity.
Defined.

Section Persistence.

Lemma Push_keys env n w :
  grants env ->
  keys (snd (Push env n w))
  = if Persist n then persisted (persistence_key n) (keys w)
    else delete (persistence_key n) (keys w).
Proof.
  intros G. destruct (Push_eq env n w) as (w1 & -> & _ & _ & _ & Hk).
  cbn [snd keys set_files]. apply Hk, G.
Qed.

Lemma Push_handles env n w : handles (snd (Push env n w)) = handles w.
Proof.
  destruct (Push_eq env n w) as (w1 & -> & _ & _ & Hh & _).
  cbn [snd handles set_files]. exact Hh.
Qed.

Lemma persisted_idem key ks : persisted key (persisted key ks) = persisted key ks.
Proof.
  unfold persisted. rewrite lookup_insert_eq. unfold default at 1.
  cbn [from_option id]. rewrite !insert_insert_eq. reflexivity.
Qed.

End Persistence.

(** C8.  When the registry refuses no call: a [Push] with [Persist] set
    leaves the key of the AppID under the settings path in place, created
    if it was absent, with [ShowInActionCenter] set to 1, and no key
    handle open that was not open before; a second such [Push] changes no
    key.  A [Push] with [Persist] unset deletes that key, and a key that
    is absent already changes nothing and is no error for the caller, who
    gets the invoker's result.  So [Persist] set and then unset for the
    same AppID leaves no persistence key. *)
Theorem persistence_key_set_and_deleted env1 env2 n1 n2 w :
  grants env1 -> grants env2 ->
  AppID n1 = AppID n2 -> Persist n1 = true -> Persist n2 = false ->
  let key := settings_path +:+ AppID n1 in
  let w1 := snd (Push env1 n1 w) in
  let w2 := snd (Push env2 n2 w1) in
  (exists vals, keys w1 !! key = Some vals
                /\ vals !! "ShowInActionCenter" = Some 1%Z)
  /\ keys w1
     = <[key := <["ShowInActionCenter" := 1%Z]> (default ∅ (keys w !! key))]> (keys w)
  /\ handles w1 = handles w
  /\ keys (snd (Push env2 n1 w1)) = keys w1
  /\ keys w2 = delete key (keys w)
  /\ keys w2 !! key = None
  /\ handles w2 = handles w
  /\ keys (snd (Push env2 n2 w2)) = keys w2
  /\ fst (Push env2 n2 w2) = Returns (invoke_error env2).
Proof.
  intros G1 G2 Eid Ht Hf key w1 w2. subst w2 w1.
  rewrite !Push_handles, !Push_keys by assumption.
  rewrite Ht, Hf. unfold persistence_key. rewrite <- Eid. fold key.
  split; [|split; [|split; [|split; [|split; [|split; [|split; [|split]]]]]]].
  - eexists. unfold persisted. rewrite lookup_insert_eq.
    split; [reflexivity | apply lookup_insert_eq].
  - reflexivity.
  - reflexivity.
  - apply persisted_idem.
  - unfold persisted. apply delete_insert_eq.
  - unfold persisted. rewrite delete_insert_eq. apply lookup_delete_eq.
  - reflexivity.
  - apply delete_delete_eq.
  - destruct (Push_eq env2 n2 (snd (Push env2 n2 (snd (Push env1 n1 w)))))
      as (w' & -> & _).
    reflexivity.
Qed.

Lemma persistence_key_set_and_deleted_witness :
  grants (Sample.exits 0) /\ AppID Sample.persistent = AppID Sample.transient
  /\ Persist Sample.persistent = true /\ Persist Sample.transient = false
  /\ keys (snd (Push (Sample.exits 0) Sample.transient
                  (snd (Push (Sample.exits 0) Sample.persistent Sample.world))))
       !! (settings_path +:+ "Example App") = None.
Proof.
  assert (grants (Sample.exits 0)) as G by (repeat split; reflexivity).
  split; [exact G|]. repeat (split; [reflexivity|]).
  apply (persistence_key_set_and_deleted (Sample.exits 0) (Sample.exits 0)
           Sample.persistent Sample.transient Sample.world G G
           eq_refl eq_refl eq_refl).
Defined.

Section Equality.

Lemma Action_eqb_eq a b : Action_eqb a b = true -> a = b.
Proof.
  unfold Action_eqb. intros H.
  apply andb_true_iff in H as [H H3]. apply andb_true_iff in H as [H1 H2].
  apply String.eqb_eq in H1, H2, H3. destruct a, b. cbn in *. congruence.
Qed.

Lemma Actions_eqb_eq l1 l2 : Actions_eqb l1 l2 = true -> l1 = l2.
Proof.
  revert l2. induction l1 as [|a l1 IH]; intros [|b l2] H;
    try discriminate H; [reflexivity|].
  cbn [Actions_eqb] in H. apply andb_true_iff in H as [H1 H2].
  f_equal; [apply Action_eqb_eq, H1 | apply IH, H2].
Qed.

Lemma Notification_eqb_eq n1 n2 : Notification_eqb n1 n2 = true -> n1 = n2.
Proof.
  unfold Notification_eqb. intros H.
  apply andb_true_iff in H as [H Hp]. apply andb_true_iff in H as [H Ha].
  apply andb_true_iff in H as [H Hi]. apply andb_true_iff in H as [H Hm].
  apply andb_true_iff in H as [Hid Ht].
  apply String.eqb_eq in Hid, Ht, Hm, Hi.
  apply Actions_eqb_eq in Ha. apply Bool.eqb_prop in Hp.
  destruct n1, n2. cbn in *. congruence.
Qed.

End Equality.

(** C9.  [buildXML] is a function of the request and of the template
    [init] installed, and of nothing else: for two structurally equal
    requests, in any two worlds that hold the same template, it returns
    the same text and the same error, and it leaves each world as it
    was. *)
Theorem rendering_is_pure n1 n2 w1 w2 :
  Notification_eqb n1 n2 = true ->
  toastTemplate w1 = toastTemplate w2 ->
  fst (buildXML n1 w1) = fst (buildXML n2 w2)
  /\ snd (buildXML n1 w1) = w1
  /\ snd (buildXML n2 w2) = w2.
Proof.
  intros En Et. apply Notification_eqb_eq in En as ->.
  unfold buildXML. rewrite Et.
  destruct (Template.Execute _ _); repeat split; reflexivity.
Qed.

Lemma rendering_is_pure_witness :
  Notification_eqb Sample.build
    (mkNotification "" "Build" "Done" "" [mkAction "protocol" "Open" "app://open"] false)
  = true
  /\ toastTemplate Sample.world
     = toastTemplate (snd (Push (Sample.exits 3) Sample.persistent Sample.world))
  /\ fst (buildXML Sample.build Sample.world)
     = fst (buildXML
              (mkNotification "" "Build" "Done" ""
                 [mkAction "protocol" "Open" "app://open"] false)
              (snd (Push (Sample.exits 3) Sample.persistent Sample.world))).
Proof.
  assert (toastTemplate Sample.world
          = toastTemplate (snd (Push (Sample.exits 3) Sample.persistent Sample.world)))
    as Et.
  { destruct (Push_eq (Sample.exits 3) Sample.persistent Sample.world)
      as (w1 & -> & Ht & _). symmetry. exact Ht. }
  split; [reflexivity|]. split; [exact Et|].
  apply (rendering_is_pure Sample.build
           (mkNotification "" "Build" "Done" ""
              [mkAction "protocol" "Open" "app://open"] false)
           Sample.world _ eq_refl Et).
Defined.

(** ** The code on concrete inputs *)

Example format_sample :
  uuid.format Sample.id_bytes = "01020304-0506-0708-090a-0b0c0d0e0fff".
Proof. reflexivity. Qed.

Example temp_file_sample :
  temp_file (Sample.exits 0) = "C:\Temp\01020304-0506-0708-090a-0b0c0d0e0fff.ps1".
Proof. reflexivity. Qed.

(** The request [{Title: Build, Message: Done, Actions: [{protocol, Open,
    app://open}]}]: two text elements, one action element, no image. *)
Example render_build :
  exists out,
    fst (buildXML Sample.build Sample.world) = Returns (out, None)
    /\ Str.occurrences "<text>Build</text>" out = 1
    /\ Str.occurrences "<text>Done</text>" out = 1
    /\ Str.occurrences "<text>" out = 2
    /\ Str.occurrences (action_element (mkAction "protocol" "Open" "app://open")) out = 1
    /\ Str.occurrences "<action " out = 1
    /\ Str.occurrences "<image" out = 0
    /\ Str.occurrences "$APP_ID = 'io.github.go-toast.toast'" out = 1.
Proof. eexists. split; [vm_compute; reflexivity|]. vm_compute. tauto. Qed.

(** Before [init] the template has no tree, and [buildXML] fails. *)
Example render_without_init :
  fst (buildXML Sample.build Sample.blank)
  = Returns ("", Some (TemplateError "incomplete or empty template")).
Proof. reflexivity. Qed.

Example push_persistent :
  keys (snd (Push (Sample.exits 0) Sample.persistent Sample.world))
    !! (settings_path +:+ "Example App")
  = Some {[ "ShowInActionCenter" := 1%Z ]}.
Proof.
  destruct (Push_eq (Sample.exits 0) Sample.persistent Sample.world)
    as (w1 & -> & _ & _ & _ & Hk).
  cbn [snd keys set_files]. rewrite Hk by (repeat split; reflexivity).
  cbn [Sample.persistent Persist]. unfold persisted, persistence_key.
  cbn [AppID]. rewrite lookup_insert_eq. reflexivity.
Qed.

(** * Further properties *)

(** ** Rendering after [init] *)

Lemma Push_template env n w : toastTemplate (snd (Push env n w)) = toastTemplate w.
Proof.
  destruct (Push_eq env n w) as (w1 & -> & Ht & _).
  cbn [snd toastTemplate set_files]. exact Ht.
Qed.

Lemma pushes_template calls w : toastTemplate (pushes calls w) = toastTemplate w.
Proof.
  revert w. induction calls as [|[env n] calls IH]; intros w; [reflexivity|].
  cbn [pushes fold_left fst snd]. fold (pushes calls).
  rewrite IH. apply Push_template.
Qed.

(** X1.  Once [init] has run, [buildXML] never fails: for every request,
    and after any run of calls of [Push] whatever the environment
    answered, it returns the rendered text with a nil error.  The template
    text parses, no action of it can fail on a [Notification], and
    [Push] leaves the template in place. *)
Theorem rendering_never_fails_after_init n calls w :
  buildXML n (pushes calls (snd (init w)))
  = (Returns (render n, None), pushes calls (snd (init w))).
Proof.
  unfold buildXML.
  rewrite pushes_template, init_template, Execute_toast. reflexivity.
Qed.

(** X2.  The rendered script does not depend on [Persist]: the choice
    reaches the registry only. *)
Theorem persist_is_not_rendered n p w :
  fst (buildXML (with_Persist p n) (snd (init w))) = fst (buildXML n (snd (init w))).
Proof. rewrite !buildXML_init. reflexivity. Qed.

(** ** The frame of [invokeTemporaryScript] and [Push] *)




Section Registry.

(** The keys after the registry calls of [Push], for every answer of the
    registry. *)
Lemma registry_calls_keys env n w :
  exists r w1,
    (if Persist n then
       bind (registry.CreateKey env registry.CURRENT_USER
               (settings_path +:+ AppID n) registry.ALL_ACCESS)
         (fun x => match x with
                   | (k, _, _) =>
                       bind (registry.SetDWordValue env k "ShowInActionCenter" 1%Z)
                         (fun _ => registry.Close k)
                   end)
     else
       registry.DeleteKey env registry.CURRENT_USER (settings_path +:+ AppID n)) w
    = (Returns r, w1)
    /\ keys w1 = keys_after env n (keys w).
Proof.
  unfold keys_after, persisted.
  destruct (Persist n).
  - unfold bind, registry.CreateKey. cbn [Z.eqb registry.CURRENT_USER negb].
    rewrite Pos.eqb_refl. cbn [negb].
    destruct (create_refused env) as [e|] eqn:Ec.
    { eexists _, w. split; reflexivity. }
    destruct (keys w !! (settings_path +:+ AppID n)) as [vals|] eqn:Ek;
      unfold registry.SetDWordValue, registry.resolve;
      cbn [handles set_handles set_keys keys]; rewrite lookup_insert_eq;
      destruct (set_refused env) as [e|] eqn:Es;
      unfold registry.Close; cbn [handles set_handles set_keys keys];
      rewrite lookup_insert_eq;
      eexists _, _; (split; [reflexivity|]);
      cbn [keys set_handles set_keys]; rewrite ?Ek; try reflexivity.
    rewrite lookup_insert_eq, insert_insert_eq. reflexivity.
  - unfold registry.DeleteKey. cbn [Z.eqb registry.CURRENT_USER negb].
    rewrite Pos.eqb_refl. cbn [negb].
    destruct (delete_refused env) as [e|] eqn:Ed.
    { eexists _, w. split; reflexivity. }
    destruct (keys w !! (settings_path +:+ AppID n)) as [vals|] eqn:Ek.
    + eexists _, _. split; reflexivity.
    + eexists _, w. split; [reflexivity|]. symmetry. apply delete_id, Ek.
Qed.

Lemma Push_keys_after env n w :
  keys (snd (Push env n w)) = keys_after env n (keys w).
Proof.
  destruct (registry_calls_keys env n w) as (r & w1 & E & Hk).
  destruct (registry_calls env n w) as (r' & w1' & E' & _ & Hf & _).
  rewrite E in E'. injection E' as <- <-.
  unfold Push. unfold bind at 1. rewrite E.
  destruct (buildXML_returns n w1) as (xml & err & Eb & _).
  unfold bind. rewrite Eb, invoke_eq. cbn [snd keys set_files]. exact Hk.
Qed.



End Registry.



(** ** The registry calls of [Push], errors included *)

(** X5.  The errors of the registry calls are dropped, with these
    effects.  A refused [CreateKey] leaves the registry as it was: the
    calls on the zero key that follow fail too.  When [CreateKey]
    succeeds and [SetDWordValue] is refused, a key that was absent is
    left behind, created, without its [ShowInActionCenter] value, and a
    key that was there is left as it was.  A refused [DeleteKey] leaves
    the registry as it was. *)
Theorem refused_registry_calls env n w :
  (Persist n = true -> create_refused env <> None ->
   keys (snd (Push env n w)) = keys w)
  /\ (Persist n = true -> create_refused env = None -> set_refused env <> None ->
      keys w !! (settings_path +:+ AppID n) = None ->
      keys (snd (Push env n w)) = <[settings_path +:+ AppID n := ∅]> (keys w))
  /\ (Persist n = true -> create_refused env = None -> set_refused env <> None ->
      keys w !! (settings_path +:+ AppID n) <> None ->
      keys (snd (Push env n w)) = keys w)
  /\ (Persist n = false -> delete_refused env <> None ->
      keys (snd (Push env n w)) = keys w).
Proof.
  rewrite Push_keys_after. unfold keys_after.
  split; [|split; [|split]].
  - intros -> H. destruct (create_refused env); [reflexivity | congruence].
  - intros -> -> H Hk. destruct (set_refused env); [|congruence].
    rewrite Hk. reflexivity.
  - intros -> -> H Hk. destruct (set_refused env); [|congruence].
    destruct (keys w !! (settings_path +:+ AppID n)); [reflexivity | congruence].
  - intros -> H. destruct (delete_refused env); [reflexivity | congruence].
Qed.

Lemma refused_registry_calls_witness :
  Persist Sample.persistent = true
  /\ create_refused Sample.hostile <> None
  /\ keys (snd (Push Sample.hostile Sample.persistent Sample.world))
     = keys Sample.world
  /\ create_refused Sample.set_refused_only = None
  /\ set_refused Sample.set_refused_only <> None
  /\ keys Sample.world !! (settings_path +:+ AppID Sample.persistent) = None
  /\ keys (snd (Push Sample.set_refused_only Sample.persistent Sample.world))
     = <[settings_path +:+ AppID Sample.persistent := ∅]> (keys Sample.world).
Proof.
  assert (create_refused Sample.hostile <> None) as Hc by discriminate.
  assert (set_refused Sample.set_refused_only <> None) as Hs by discriminate.
  split; [reflexivity|]. split; [exact Hc|]. split.
  - apply (proj1 (refused_registry_calls Sample.hostile Sample.persistent
                    Sample.world) eq_refl Hc).
  - split; [reflexivity|]. split; [exact Hs|]. split; [reflexivity|].
    apply (proj1 (proj2 (refused_registry_calls Sample.set_refused_only
                           Sample.persistent Sample.world))
             eq_refl eq_refl Hs eq_refl).
Defined.

(** X6.  With an empty AppID the script shows the toast under the default
    identifier, but the persistence setting is not stored under that
    identifier: [Push] sets [ShowInActionCenter] on the key of the
    settings path itself and leaves the key of the default identifier as
    it was. *)
Theorem empty_app_id_key_is_not_the_default env n v :
  grants env -> AppID n = "" -> Persist n = true ->
  (exists rest,
     fst (buildXML n (snd (init v)))
     = Returns (type_loads +:+ app_id_line "io.github.go-toast.toast" +:+ rest, None))
  /\ (exists vals,
        keys (snd (Push env n (snd (init v)))) !! settings_path = Some vals
        /\ vals !! "ShowInActionCenter" = Some 1%Z)
  /\ keys (snd (Push env n (snd (init v))))
       !! (settings_path +:+ "io.github.go-toast.toast")
     = keys (snd (init v)) !! (settings_path +:+ "io.github.go-toast.toast").
Proof.
  intros G Hid Hp.
  split.
  { destruct (render_declares n) as (rest & E). exists rest.
    rewrite buildXML_init. cbn [fst]. rewrite E, Hid. reflexivity. }
  rewrite Push_keys by exact G. rewrite Hp. unfold persistence_key, persisted.
  rewrite Hid, append_empty_r. split.
  - eexists. rewrite lookup_insert_eq. split; [reflexivity | apply lookup_insert_eq].
  - apply lookup_insert_ne. discriminate.
Qed.

Lemma empty_app_id_key_is_not_the_default_witness :
  grants (Sample.exits 0) /\ AppID (with_Persist true Sample.build) = ""
  /\ Persist (with_Persist true Sample.build) = true
  /\ keys (snd (Push (Sample.exits 0) (with_Persist true Sample.build) Sample.world))
       !! (settings_path +:+ "io.github.go-toast.toast") = None.
Proof.
  assert (grants (Sample.exits 0)) as G by (repeat split; reflexivity).
  split; [exact G|]. split; [reflexivity|]. split; [reflexivity|].
  apply (proj2 (proj2 (empty_app_id_key_is_not_the_default (Sample.exits 0)
                         (with_Persist true Sample.build) Sample.blank
                         G eq_refl eq_refl))).
Defined.



Section Commuting.



End Commuting.



(** ** The name of the temporary file *)

Section Identifier.

Lemma all_bytes_read_back :
  forallb hex_byte_reads_back (map Z.of_nat (seq 0 256)) = true.
Proof. vm_compute. reflexivity. Qed.

Lemma unhex_hex_byte b rest :
  (0 <= b < 256)%Z -> unhex (uuid.hex_byte b +:+ rest) = b :: unhex rest.
Proof.
  intros Hb.
  assert (hex_byte_reads_back b = true) as H.
  { apply (proj1 (forallb_forall _ _) all_bytes_read_back).
    rewrite <- (Z2Nat.id b) by lia. apply in_map, in_seq. lia. }
  unfold hex_byte_reads_back in H. apply andb_true_iff in H as [Hd Hv].
  apply negb_true_iff in Hd. apply Z.eqb_eq in Hv.
  unfold uuid.hex_byte. rewrite !append_cons, append_nil.
  cbn [unhex]. rewrite Hd, Hv. reflexivity.
Qed.

Lemma unhex_hex bs rest :
  is_bytes bs -> unhex (uuid.hex bs +:+ rest) = bs ++ unhex rest.
Proof.
  unfold uuid.hex. induction bs as [|b bs IH]; intros H; [reflexivity|].
  apply Forall_cons in H as [Hb H].
  cbn [map Str.concat]. rewrite append_assoc, (unhex_hex_byte _ _ Hb), (IH H).
  reflexivity.
Qed.

Lemma unhex_dash rest : unhex ("-" +:+ rest) = unhex rest.
Proof. reflexivity. Qed.

(** The formatted identifier spells its bytes back. *)
Lemma unhex_format u rest :
  is_bytes u -> unhex (uuid.format u +:+ rest) = u ++ unhex rest.
Proof.
  intros H. unfold uuid.format. rewrite !append_assoc.
  repeat (rewrite unhex_hex by (repeat first [apply Forall_take | apply Forall_drop]; exact H);
          rewrite ?unhex_dash).
  rewrite !app_assoc. f_equal.
  rewrite <- !app_assoc.
  replace (drop 10 u) with (drop 2 (drop 8 u)) by (rewrite drop_drop; reflexivity).
  rewrite take_drop.
  replace (drop 8 u) with (drop 2 (drop 6 u)) by (rewrite drop_drop; reflexivity).
  rewrite take_drop.
  replace (drop 6 u) with (drop 2 (drop 4 u)) by (rewrite drop_drop; reflexivity).
  rewrite take_drop. apply take_drop.
Qed.

End Identifier.

(** X9.  Two calls with the same temporary directory and different
    identifiers use different temporary files: the name spells the bytes
    of the identifier, so it tells identifiers apart.  Hence the cleanup
    of one call leaves the file of the other alone. *)
Theorem different_ids_different_files env1 env2 content w :
  is_bytes (uuid_bytes env1) -> is_bytes (uuid_bytes env2) ->
  TempDir env1 = TempDir env2 -> uuid_bytes env1 <> uuid_bytes env2 ->
  temp_file env1 <> temp_file env2
  /\ files (snd (invokeTemporaryScript env1 content w)) !! temp_file env2
     = files w !! temp_file env2.
Proof.
  intros H1 H2 Hd Hne.
  assert (temp_file env1 <> temp_file env2) as Hf.
  { unfold temp_file, filepath.Join. rewrite Hd. intros E.
    apply String.app_inj in E. apply String.app_inj in E.
    apply (f_equal unhex) in E. rewrite !unhex_format in E by assumption.
    apply app_inv_tail in E. exact (Hne E). }
  split; [exact Hf|].
  rewrite invoke_eq. cbn [snd files set_files].
  apply lookup_delete_ne, Hf.
Qed.

Lemma different_ids_different_files_witness :
  is_bytes (uuid_bytes (Sample.exits 0)) /\ is_bytes (uuid_bytes Sample.no_entropy)
  /\ TempDir (Sample.exits 0) = TempDir Sample.no_entropy
  /\ uuid_bytes (Sample.exits 0) <> uuid_bytes Sample.no_entropy
  /\ temp_file (Sample.exits 0) <> temp_file Sample.no_entropy.
Proof.
  assert (is_bytes (uuid_bytes (Sample.exits 0))) as H1
    by (unfold is_bytes; cbn; repeat constructor; lia).
  assert (is_bytes (uuid_bytes Sample.no_entropy)) as H2
    by (unfold is_bytes; cbn; repeat constructor; lia).
  assert (uuid_bytes (Sample.exits 0) <> uuid_bytes Sample.no_entropy) as Hne
    by discriminate.
  split; [exact H1|]. split; [exact H2|]. split; [reflexivity|]. split; [exact Hne|].
  apply (different_ids_different_files (Sample.exits 0) Sample.no_entropy
           "script" Sample.world H1 H2 eq_refl Hne).
Defined.

(** ** The tags of the payload *)

Lemma counted_tags n :
  counted "<toast>" (writes n) = 1
  /\ counted "</toast>" (writes n) = 1
  /\ counted "<visual>" (writes n) = 1
  /\ counted "</visual>" (writes n) = 1
  /\ counted "<binding " (writes n) = 1
  /\ counted "</binding>" (writes n) = 1
  /\ counted "<actions>" (writes n) = some_action n
  /\ counted "</actions>" (writes n) = some_action n
  /\ counted "<" (writes n)
     = 6 + Nat.b2n (nonempty (Icon n))
       + 2 * Nat.b2n (nonempty (Title n)) + 2 * Nat.b2n (nonempty (Message n))
       + 2 * some_action n + length (Actions n).
Proof.
  unfold writes, app_id_writes, icon_writes, text_writes, actions_writes, some_action.
  rewrite !counted_app.
  destruct (nonempty (AppID n)), (nonempty (Icon n)), (nonempty (Title n)),
    (nonempty (Message n)), (Actions n) as [|a l];
    rewrite ?counted_app, ?counted_actions;
    cbn [counted action_writes length Nat.b2n];
    count_pieces; repeat split; lia.
Qed.

(** X10.  For every request whose field values contain no [<], the
    payload has exactly the tags of the template: one [toast], [visual]
    and [binding] element, opened and closed once; one [actions] block
    when there is an action and none otherwise; and no tag besides these,
    the image, the text elements and the action elements. *)
Theorem payload_tags_of_markup_free_request n w :
  free "<" n ->
  exists out,
    fst (buildXML n (snd (init w))) = Returns (out, None)
    /\ Str.occurrences "<toast>" out = 1
    /\ Str.occurrences "</toast>" out = 1
    /\ Str.occurrences "<visual>" out = 1
    /\ Str.occurrences "</visual>" out = 1
    /\ Str.occurrences "<binding " out = 1
    /\ Str.occurrences "</binding>" out = 1
    /\ Str.occurrences "<actions>" out = some_action n
    /\ Str.occurrences "</actions>" out = some_action n
    /\ Str.occurrences "<" out
       = 6 + Nat.b2n (nonempty (Icon n))
         + 2 * Nat.b2n (nonempty (Title n)) + 2 * Nat.b2n (nonempty (Message n))
         + 2 * some_action n + length (Actions n).
Proof.
  intros Hfree. exists (render n). rewrite buildXML_init.
  split; [reflexivity|].
  destruct (counted_tags n) as (H1 & H2 & H3 & H4 & H5 & H6 & H7 & H8 & H9).
  repeat split;
    (rewrite occurrences_render;
     [ assumption
     | vm_compute; reflexivity
     | first [ exact Hfree | apply (free_longer "<"), Hfree ] ]).
Qed.

Lemma payload_tags_witness :
  free "<" Sample.build
  /\ exists out,
       fst (buildXML Sample.build Sample.world) = Returns (out, None)
       /\ Str.occurrences "<" out = 13.
Proof.
  assert (free "<" Sample.build) as Hfree
    by (unfold free; vm_compute; repeat constructor).
  split; [exact Hfree|].
  destruct (payload_tags_of_markup_free_request Sample.build Sample.blank Hfree)
    as (out & E & _ & _ & _ & _ & _ & _ & _ & _ & H).
  exists out. split; [exact E | exact H].
Defined.

(** X11.  When Title and Message are both non-empty and no field value
    contains [<text], the output has two text elements: the one of the
    Title, then only white space, then the one of the Message.  The Title
    is the first text of the toast and the Message the second. *)
Theorem title_text_precedes_message_text n w :
  free "<text" n -> Title n <> "" -> Message n <> "" ->
  exists pre mid post,
    fst (buildXML n (snd (init w)))
    = Returns (pre +:+ text_element (Title n) +:+ mid
               +:+ text_element (Message n) +:+ post, None)
    /\ Str.all_space mid = true
    /\ Str.occurrences "<text"
         (pre +:+ text_element (Title n) +:+ mid
          +:+ text_element (Message n) +:+ post) = 2.
Proof.
  intros Hfree Ht Hm.
  assert (render n
          = (Template.flat ([Template.Lit Piece.preamble] ++ app_id_writes n
                            ++ [Template.Lit Piece.binding_open] ++ icon_writes n)
             +:+ Piece.gap +:+ Piece.gap)
            +:+ text_element (Title n)
            +:+ (Piece.gap +:+ Piece.gap +:+ Piece.gap)
            +:+ text_element (Message n)
            +:+ (Piece.gap
                 +:+ Template.flat ([Template.Lit Piece.binding_close]
                                    ++ actions_writes (Actions n)
                                    ++ [Template.Lit Piece.epilogue]))) as E.
  { unfold render, writes. rewrite !flat_app.
    rewrite !(flat_text _ (nonempty_true _ Ht)), !(flat_text _ (nonempty_true _ Hm)).
    cbn [Template.flat Template.bytes_of].
    rewrite !append_assoc, ?append_empty_r. reflexivity. }
  eexists _, _, _. rewrite buildXML_init. cbn [fst]. rewrite E.
  split; [reflexivity|]. split; [vm_compute; reflexivity|].
  rewrite <- E, occurrences_render;
    [ | vm_compute; reflexivity | exact Hfree ].
  rewrite counted_text_elements, !nonempty_true by assumption. reflexivity.
Qed.

Lemma title_text_precedes_message_text_witness :
  free "<text" Sample.build /\ Title Sample.build <> "" /\ Message Sample.build <> ""
  /\ exists pre mid post,
       fst (buildXML Sample.build Sample.world)
       = Returns (pre +:+ "<text>Build</text>" +:+ mid
                  +:+ "<text>Done</text>" +:+ post, None)
       /\ Str.all_space mid = true.
Proof.
  assert (free "<text" Sample.build) as Hfree
    by (unfold free; vm_compute; repeat constructor).
  assert (Title Sample.build <> "") as Ht by discriminate.
  assert (Message Sample.build <> "") as Hm by discriminate.
  split; [exact Hfree|]. split; [exact Ht|]. split; [exact Hm|].
  destruct (title_text_precedes_message_text Sample.build Sample.blank Hfree Ht Hm)
    as (pre & mid & post & E & Hs & _).
  exists pre, mid, post. split; [exact E | exact Hs].
Defined.

(** ** The other values of the persistence key *)

(** X12.  When the registry refuses no call: a [Push] with [Persist] set
    on a key that exists keeps the other values of the key and sets
    [ShowInActionCenter] only.  A [Push] with [Persist] unset deletes the
    key with all its values, so that setting [Persist] again afterwards
    leaves a key that holds [ShowInActionCenter] and nothing else. *)
Theorem other_values_of_the_key env1 env2 n1 n2 w vals :
  grants env1 -> grants env2 ->
  AppID n1 = AppID n2 -> Persist n1 = true -> Persist n2 = false ->
  keys w !! (settings_path +:+ AppID n1) = Some vals ->
  (exists vals',
     keys (snd (Push env1 n1 w)) !! (settings_path +:+ AppID n1) = Some vals'
     /\ vals' !! "ShowInActionCenter" = Some 1%Z
     /\ forall name, name <> "ShowInActionCenter" -> vals' !! name = vals !! name)
  /\ keys (snd (Push env1 n1 (snd (Push env2 n2 w)))) !! (settings_path +:+ AppID n1)
     = Some {[ "ShowInActionCenter" := 1%Z ]}.
Proof.
  intros G1 G2 Eid Ht Hf Hk.
  rewrite !Push_keys by assumption. rewrite Ht, Hf.
  unfold persistence_key, persisted. rewrite <- Eid. split.
  - eexists. rewrite lookup_insert_eq. split; [reflexivity|].
    rewrite Hk. cbn [default from_option id]. split; [apply lookup_insert_eq|].
    intros name Hne. apply lookup_insert_ne. congruence.
  - rewrite lookup_insert_eq, lookup_delete_eq. reflexivity.
Qed.

Lemma other_values_of_the_key_witness :
  grants (Sample.exits 0)
  /\ AppID Sample.persistent = AppID Sample.transient
  /\ Persist Sample.persistent = true /\ Persist Sample.transient = false
  /\ keys Sample.configured !! (settings_path +:+ AppID Sample.persistent)
     = Some {[ "Enabled" := 0%Z ]}
  /\ keys (snd (Push (Sample.exits 0) Sample.persistent
                  (snd (Push (Sample.exits 0) Sample.transient Sample.configured))))
       !! (settings_path +:+ AppID Sample.persistent)
     = Some {[ "ShowInActionCenter" := 1%Z ]}.
Proof.
  assert (grants (Sample.exits 0)) as G by (repeat split; reflexivity).
  assert (keys Sample.configured !! (settings_path +:+ AppID Sample.persistent)
          = Some {[ "Enabled" := 0%Z ]}) as Hk by apply lookup_insert_eq.
  split; [exact G|]. do 3 (split; [reflexivity|]). split; [exact Hk|].
  apply (proj2 (other_values_of_the_key (Sample.exits 0) (Sample.exits 0)
                  Sample.persistent Sample.transient Sample.configured _
                  G G eq_refl eq_refl eq_refl Hk)).
Defined.
